(** * Approval workflow engine of the expense tracker

    A shallow embedding of [nodejs-backend/utils/approvalWorkflow.js]
    ([createApprovalSequence], [processApproval], [evaluateApprovalRules])
    and of the decision and cancellation routes of
    [nodejs-backend/routes/expenses.js], over an explicit model of the
    Prisma store they read and write.

    Modelling conventions
    - table rows are records, one module per Prisma model, with the
      columns and column types of [prisma/migrations/.../migration.sql]:
      in particular [approval_sequences.sequence] and
      [approval_rules.config] are TEXT, so Prisma hands them to the code
      as strings, and the code reads them without parsing;
    - status, role and rule-type columns are TEXT in the store and stay
      [string] here, compared with [===] as in the source;
    - a nullable column is an [option]; JavaScript truthiness of such a
      value is written out ([truthyNum], [truthyStr]);
    - a JavaScript number is an IEEE 754 binary64 value: the REAL column
      [threshold] holds a finite double ([Js.double]), a product is the
      exact product rounded to the nearest double, ties to even
      ([Js.round64]), with overflow to an infinity; [-0] is identified
      with [0], which [Math.ceil], [>=] and template literals do not tell
      apart; an array length enters arithmetic by its exact value (it is
      below 2^32);
    - the expense and approver foreign keys of [expense_approvals] are
      enforced on insertion;
    - [createdAt] / [updatedAt] timestamps are not modelled;
    - an [async] function that reads and writes the store is a function
      [DB -> (string + A) * DB]: [inl msg] is a thrown [Error msg], and
      the store component is the state left behind (Prisma calls are not
      wrapped in a transaction, so writes made before a throw remain). *)

From Stdlib Require Import List String Ascii ZArith QArith Qround Bool Lia Sorted.
From Stdlib Require Import DecimalString.
Import ListNotations.

Local Open Scope Z_scope.

(** ** JavaScript values and coercions used by the source *)

Module Js.

(** [if (n)] for a nullable integer: [null], [undefined] and [0] are falsy. *)
Definition truthyNum (o : option Z) : bool :=
  match o with
  | Some n => negb (n =? 0)
  | None => false
  end.

(** [if (s)] for a nullable string: [null], [undefined] and the empty string are falsy. *)
Definition truthyStr (o : option string) : bool :=
  match o with
  | Some s => negb (String.eqb s "")
  | None => false
  end.

(** [a === b] on nullable integers when [b] is a number. *)
Definition eqNum (a : option Z) (b : Z) : bool :=
  match a with
  | Some n => n =? b
  | None => false
  end.

(** [a === b] on nullable strings when [b] is a string. *)
Definition eqStr (a : option string) (b : string) : bool :=
  match a with
  | Some s => String.eqb s b
  | None => false
  end.

(** *** Numbers *)

(** The finite doubles: [mant * 2 ^ expo] with a significand of at most
    53 bits, an exponent not below that of the smallest subnormal and a
    magnitude below 2^1024. Each double is written in one way only: the
    significand is odd, and zero is [0 * 2 ^ 0]. *)
Definition inRange (m e : Z) : bool :=
  ((m =? 0) && (e =? 0))
  || (Z.odd m && (Z.abs m <? 2 ^ 53) && (-1074 <=? e)
      && (Z.log2 (Z.abs m) + e <? 1024)).

Record double := mkDouble {
  mant : Z;
  expo : Z;
  double_ok : inRange mant expo = true
}.

(** [2 ^ e] for an integer [e] of either sign. *)
Definition pow2 (e : Z) : Q :=
  if 0 <=? e then inject_Z (2 ^ e) else 1 # Z.to_pos (2 ^ (- e)).

(** The rational a finite double stands for. *)
Definition toQ (d : double) : Q := (inject_Z (mant d) * pow2 (expo d))%Q.

(** The result of an arithmetic operation. *)
Inductive number :=
| NaN
| PInf
| NInf
| Fin (q : Q).

(** [N / D] rounded to the nearest integer, ties to the even one. *)
Definition rne (N D : Z) : Z :=
  let q := N / D in
  let r := N mod D in
  if 2 * r <? D then q
  else if D <? 2 * r then q + 1
  else if Z.even q then q else q + 1.

(** [a / b / 2 ^ e] as a fraction of integers. *)
Definition scaled (a : Z) (b : positive) (e : Z) : Z * Z :=
  if 0 <=? e then (a, Zpos b * 2 ^ e) else (a * 2 ^ (- e), Zpos b).

(** The exponent of the unit in the last place of the double nearest to
    [a / b > 0]: the significand then has exactly 53 bits, unless the
    value is subnormal, where the exponent stays at -1074. *)
Definition ulpExponent (a : Z) (b : positive) : Z :=
  let e0 := Z.log2 a - Z.log2 (Zpos b) - 52 in
  let e1 := if 2 ^ 52 <=? fst (scaled a b e0) / snd (scaled a b e0) then e0 else e0 - 1 in
  Z.max e1 (-1074).

(** Round-to-nearest-even of [a / b > 0]; [None] is overflow. *)
Definition roundPos (a : Z) (b : positive) : option Q :=
  let e := ulpExponent a b in
  let m := rne (fst (scaled a b e)) (snd (scaled a b e)) in
  if (971 <? e) || ((e =? 971) && (m =? 2 ^ 53)) then None
  else Some (inject_Z m * pow2 e)%Q.

(** The double nearest to a rational. *)
Definition round64 (x : Q) : number :=
  match Qnum x with
  | 0 => Fin 0%Q
  | Zpos a =>
      match roundPos (Zpos a) (Qden x) with
      | Some q => Fin q
      | None => PInf
      end
  | Zneg a =>
      match roundPos (Zpos a) (Qden x) with
      | Some q => Fin (- q)%Q
      | None => NInf
      end
  end.

(** [x * y]. *)
Definition mul (x y : number) : number :=
  match x, y with
  | NaN, _ | _, NaN => NaN
  | Fin a, Fin b => round64 (a * b)%Q
  | Fin a, PInf | PInf, Fin a =>
      match Qnum a with 0 => NaN | Zpos _ => PInf | Zneg _ => NInf end
  | Fin a, NInf | NInf, Fin a =>
      match Qnum a with 0 => NaN | Zpos _ => NInf | Zneg _ => PInf end
  | PInf, PInf | NInf, NInf => PInf
  | PInf, NInf | NInf, PInf => NInf
  end.

(** [array.length] as a number. *)
Definition ofLength (n : nat) : number := Fin (inject_Z (Z.of_nat n)).

Definition ofDouble (d : double) : number := Fin (toQ d).

(** [Math.ceil]. *)
Definition Math_ceil (x : number) : number :=
  match x with
  | Fin q => Fin (inject_Z (Qceiling q))
  | _ => x
  end.

(** [Math.round]: the nearest integer, a tie going up. *)
Definition Math_round (x : number) : number :=
  match x with
  | Fin q => Fin (inject_Z (Qfloor (q + (1 # 2))%Q))
  | _ => x
  end.

(** [array.length >= x]. *)
Definition lengthGe (n : nat) (x : number) : bool :=
  match x with
  | Fin q => Qle_bool q (inject_Z (Z.of_nat n))
  | NInf => true
  | PInf | NaN => false
  end.

(** Template-literal rendering of an integer. *)
Definition showZ (z : Z) : string := NilZero.string_of_int (Z.to_int z).

(** Template-literal rendering of the result of [Math.round] (an integer,
    written in decimal; JavaScript switches to exponent notation from
    1e21 on, which a percentage does not reach). *)
Definition showNumber (x : number) : string :=
  match x with
  | NaN => "NaN"
  | PInf => "Infinity"
  | NInf => "-Infinity"
  | Fin q => showZ (Qfloor q)
  end.

(** *** Values *)

(** The property names the source reads. *)
Inductive prop := PType | PValue | PPercentageThreshold | PSpecificRole.

Definition prop_eqb (p q : prop) : bool :=
  match p, q with
  | PType, PType | PValue, PValue
  | PPercentageThreshold, PPercentageThreshold
  | PSpecificRole, PSpecificRole => true
  | _, _ => false
  end.

Inductive value :=
| VUndefined
| VNull
| VNum (x : number)
| VStr (s : string)
| VObj (fields : fieldList)
with fieldList :=
| FNil
| FCons (p : prop) (v : value) (rest : fieldList).

(** The own property [p] of an object with the given fields. *)
Fixpoint field (fields : fieldList) (p : prop) : value :=
  match fields with
  | FNil => VUndefined
  | FCons p' v rest => if prop_eqb p' p then v else field rest p
  end.

(** [v.p] for a string, a number or an object [v]: a string or number
    primitive has none of the properties [type], [value],
    [percentageThreshold], [specificRole], so the read gives
    [undefined]. (Reading a property of [undefined] or [null] throws; the
    source only reads properties of a character of a string and of
    [config || {}].) *)
Definition get (v : value) (p : prop) : value :=
  match v with
  | VObj fields => field fields p
  | _ => VUndefined
  end.

(** [if (v)]. *)
Definition truthy (v : value) : bool :=
  match v with
  | VUndefined | VNull => false
  | VNum NaN => false
  | VNum (Fin q) => negb (Qeq_bool q 0%Q)
  | VNum _ => true
  | VStr s => negb (String.eqb s "")
  | VObj _ => true
  end.

(** [a || b]. *)
Definition orElse (a b : value) : value := if truthy a then a else b.

(** [v === s] for a string literal [s]. *)
Definition strictEqStr (v : value) (s : string) : bool :=
  match v with
  | VStr t => String.eqb t s
  | _ => false
  end.

(** [a === v] for a nullable TEXT column [a]. *)
Definition columnEq (a : option string) (v : value) : bool :=
  match a, v with
  | Some s, VStr t => String.eqb s t
  | None, VNull => true
  | _, _ => false
  end.

(** The operand of a product as a number. A non-empty string operand
    would be parsed; none arises here, and it is taken as [NaN]. *)
Definition toNumber (v : value) : number :=
  match v with
  | VUndefined => NaN
  | VNull => Fin 0%Q
  | VNum x => x
  | VStr s => if String.eqb s "" then Fin 0%Q else NaN
  | VObj _ => NaN
  end.

(** The characters of a string, as [s[i]] gives them. *)
Fixpoint chars (s : string) : list value :=
  match s with
  | EmptyString => []
  | String c r => VStr (String c EmptyString) :: chars r
  end.

(** [String.prototype.toUpperCase], on ASCII letters. *)
Definition upperAscii (c : ascii) : ascii :=
  let n := nat_of_ascii c in
  if andb (Nat.leb 97 n) (Nat.leb n 122) then ascii_of_nat (n - 32) else c.

Fixpoint toUpperCase (s : string) : string :=
  match s with
  | EmptyString => EmptyString
  | String c r => String (upperAscii c) (toUpperCase r)
  end.

(** [names.join(', ')]; an [undefined] element is rendered as the empty string. *)
Definition join (sep : string) (l : list (option string)) : string :=
  String.concat sep (map (fun o => match o with Some s => s | None => EmptyString end) l).

End Js.

(** ** The store: one module per Prisma model *)

Module User.
Record t := mk {
  id : Z;
  fullName : string;
  role : string;
  companyId : Z;
  reportsTo : option Z;
  isActive : bool
}.
End User.

Module Expense.
Record t := mk {
  id : Z;
  userId : Z;
  companyId : Z;
  status : string
}.

Definition withStatus (s : string) (e : t) : t :=
  mk (id e) (userId e) (companyId e) s.
End Expense.

Module ExpenseApproval.
Record t := mk {
  id : Z;
  expenseId : Z;
  approverId : option Z;
  approverRole : option string;
  status : string;
  comment : option string;
  order : Z
}.

Definition withDecision (s : string) (c : option string) (a : t) : t :=
  mk (id a) (expenseId a) (approverId a) (approverRole a) s c (order a).
End ExpenseApproval.

Module ApprovalRule.
Record t := mk {
  id : Z;
  companyId : Z;
  ruleType : string;
  threshold : option Js.double;
  specificApproverId : option Z;
  specificRole : option string;
  config : option string;
  isActive : bool
}.
End ApprovalRule.

Module ApprovalSequence.
Record t := mk {
  id : Z;
  companyId : Z;
  sequence : string;
  isActive : bool
}.
End ApprovalSequence.

(** The store. [expenseApprovalSeq] is the AUTOINCREMENT counter of
    [expense_approvals]: the last id handed out. *)
Record DB := mkDB {
  users : list User.t;
  expenses : list Expense.t;
  expenseApprovals : list ExpenseApproval.t;
  expenseApprovalSeq : Z;
  approvalRules : list ApprovalRule.t;
  approvalSequences : list ApprovalSequence.t
}.

Definition setExpenseApprovals (l : list ExpenseApproval.t) (seq : Z) (db : DB) : DB :=
  mkDB (users db) (expenses db) l seq (approvalRules db) (approvalSequences db).

Definition setExpenses (l : list Expense.t) (db : DB) : DB :=
  mkDB (users db) l (expenseApprovals db) (expenseApprovalSeq db)
       (approvalRules db) (approvalSequences db).

(** ** Store computations: state passing with thrown errors *)

Definition Prisma (A : Type) : Type := DB -> (string + A) * DB.

Definition ret {A} (x : A) : Prisma A := fun db => (inr x, db).

Definition throw {A} (msg : string) : Prisma A := fun db => (inl msg, db).

Definition bind {A B} (m : Prisma A) (k : A -> Prisma B) : Prisma B :=
  fun db =>
    match m db with
    | (inr x, db') => k x db'
    | (inl e, db') => (inl e, db')
    end.

Declare Scope prisma_scope.
Delimit Scope prisma_scope with prisma.
Notation "'await' x <- m ;; k" := (bind m (fun x => k))
  (at level 61, x name, m at next level, right associativity) : prisma_scope.
Notation "m ;;; k" := (bind m (fun _ => k))
  (at level 61, right associativity) : prisma_scope.

(** *** Queries *)

(** [prisma.user.findUnique({ where: { id } })]. *)
Definition user_findUnique (db : DB) (uid : Z) : option User.t :=
  find (fun u => User.id u =? uid) (users db).

(** The [manager] relation of a user row ([include: { manager: true }]). *)
Definition user_manager (db : DB) (u : User.t) : option User.t :=
  match User.reportsTo u with
  | Some m => user_findUnique db m
  | None => None
  end.

(** [prisma.user.findFirst({ where: { companyId, role, isActive: true } })]. *)
Definition user_findFirstByRole (db : DB) (companyId : Z) (role : string) : option User.t :=
  find (fun u => (User.companyId u =? companyId)
                 && String.eqb (User.role u) role
                 && User.isActive u) (users db).

(** [prisma.approvalSequence.findFirst({ where: { companyId, isActive: true } })]. *)
Definition approvalSequence_findFirst (db : DB) (companyId : Z) : option ApprovalSequence.t :=
  find (fun s => (ApprovalSequence.companyId s =? companyId)
                 && ApprovalSequence.isActive s) (approvalSequences db).

(** [prisma.expense.findUnique({ where: { id } })]. *)
Definition expense_findUnique (db : DB) (eid : Z) : option Expense.t :=
  find (fun e => Expense.id e =? eid) (expenses db).

(** [orderBy: { order: 'asc' }]: a stable insertion sort on [order]. *)
Fixpoint insertByOrder (a : ExpenseApproval.t) (l : list ExpenseApproval.t)
  : list ExpenseApproval.t :=
  match l with
  | [] => [a]
  | b :: r =>
      if ExpenseApproval.order a <=? ExpenseApproval.order b
      then a :: b :: r
      else b :: insertByOrder a r
  end.

Fixpoint sortByOrder (l : list ExpenseApproval.t) : list ExpenseApproval.t :=
  match l with
  | [] => []
  | a :: r => insertByOrder a (sortByOrder r)
  end.

(** [prisma.expenseApproval.findMany({ where: { expenseId }, orderBy: { order: 'asc' } })]. *)
Definition expenseApproval_findMany (db : DB) (eid : Z) : list ExpenseApproval.t :=
  sortByOrder (filter (fun a => ExpenseApproval.expenseId a =? eid) (expenseApprovals db)).

(** [prisma.approvalRule.findMany({ where: { companyId, isActive: true } })]. *)
Definition approvalRule_findMany (db : DB) (companyId : Z) : list ApprovalRule.t :=
  filter (fun r => (ApprovalRule.companyId r =? companyId) && ApprovalRule.isActive r)
         (approvalRules db).

(** [a.approver?.fullName] under [include: { approver: true }]. *)
Definition approverFullName (us : list User.t) (a : ExpenseApproval.t) : option string :=
  match ExpenseApproval.approverId a with
  | Some uid =>
      match find (fun u => User.id u =? uid) us with
      | Some u => Some (User.fullName u)
      | None => None
      end
  | None => None
  end.

(** ** Decision evaluator: [evaluateApprovalRules] *)

(** The object returned by [evaluateApprovalRules]; a key that a given
    return statement does not set is [None]. *)
Module Verdict.
Record t := mk {
  finalDecision : option string;
  reason : string;
  rejectedBy : option string;
  comment : option string;
  approvedBy : option string;
  pendingApprovals : option nat;
  totalApprovals : option nat
}.
End Verdict.

Definition isRejected (a : ExpenseApproval.t) : bool :=
  String.eqb (ExpenseApproval.status a) "REJECTED".
Definition isApproved (a : ExpenseApproval.t) : bool :=
  String.eqb (ExpenseApproval.status a) "APPROVED".
Definition isPending (a : ExpenseApproval.t) : bool :=
  String.eqb (ExpenseApproval.status a) "PENDING".

(** [Math.ceil(totalApprovals * t)]. *)
Definition requiredApprovals (totalApprovals : nat) (t : Js.number) : Js.number :=
  Js.Math_ceil (Js.mul (Js.ofLength totalApprovals) t).

(** [rule.threshold] used as a number: [null] coerces to [0]. *)
Definition thresholdNumber (r : ApprovalRule.t) : Q :=
  match ApprovalRule.threshold r with
  | Some t => Js.toQ t
  | None => 0%Q
  end.

(** The literal [0.5]. *)
Definition half : Js.double := Js.mkDouble 1 (-1) eq_refl.

(** [rule.config || {}]: the TEXT column as Prisma returns it, a string
    or [null]. *)
Definition ruleConfig (r : ApprovalRule.t) : Js.value :=
  Js.orElse
    (match ApprovalRule.config r with
     | Some s => Js.VStr s
     | None => Js.VNull
     end)
    (Js.VObj Js.FNil).

(** [config.percentageThreshold || 0.5]. *)
Definition hybridPercentageThreshold (r : ApprovalRule.t) : Js.value :=
  Js.orElse (Js.get (ruleConfig r) Js.PPercentageThreshold)
            (Js.VNum (Js.ofDouble half)).

(** [config.specificRole]. *)
Definition hybridSpecificRole (r : ApprovalRule.t) : Js.value :=
  Js.get (ruleConfig r) Js.PSpecificRole.

Section Evaluate.

(** The rows fetched at the top of [evaluateApprovalRules]. *)
Variable us : list User.t.
Variable approvals : list ExpenseApproval.t.

Let approvedApprovals := filter isApproved approvals.
Let pendingApprovals := filter isPending approvals.
Let totalApprovals := List.length approvals.

Definition approvedNames : string :=
  Js.join ", " (map (approverFullName us) approvedApprovals).

(** [find] the first step carrying a role label and test its status. *)
Definition roleApproved (role : Js.value) : bool :=
  match find (fun a => Js.columnEq (ExpenseApproval.approverRole a) role) approvals with
  | Some roleApproval => isApproved roleApproval
  | None => false
  end.

(** One iteration of [for (const rule of rules)]: [Some v] when the body
    returns [v], [None] when the loop goes on to the next rule. *)
Definition evalRule (rule : ApprovalRule.t) : option Verdict.t :=
  if String.eqb (ApprovalRule.ruleType rule) "PERCENTAGE" then
    if Js.lengthGe (List.length approvedApprovals)
         (requiredApprovals totalApprovals (Js.Fin (thresholdNumber rule)))
    then Some (Verdict.mk (Some "APPROVED"%string)
                 ("Percentage rule satisfied ("
                    ++ Js.showNumber
                         (Js.Math_round (Js.mul (Js.Fin (thresholdNumber rule))
                                                (Js.Fin 100%Q)))
                    ++ "% approval)")%string
                 None None (Some approvedNames) None None)
    else None
  else if String.eqb (ApprovalRule.ruleType rule) "SPECIFIC" then
    if Js.truthyNum (ApprovalRule.specificApproverId rule) then
      match ApprovalRule.specificApproverId rule with
      | Some uid =>
          match find (fun a => Js.eqNum (ExpenseApproval.approverId a) uid) approvals with
          | Some specificApproval =>
              if isApproved specificApproval
              then Some (Verdict.mk (Some "APPROVED"%string)
                           "Specific approver approved"
                           None None (approverFullName us specificApproval) None None)
              else None
          | None => None
          end
      | None => None
      end
    else if Js.truthyStr (ApprovalRule.specificRole rule) then
      match ApprovalRule.specificRole rule with
      | Some role =>
          match find (fun a => Js.eqStr (ExpenseApproval.approverRole a) role) approvals with
          | Some roleApproval =>
              if isApproved roleApproval
              then Some (Verdict.mk (Some "APPROVED"%string)
                           ("Specific role (" ++ role ++ ") approved")%string
                           None None (approverFullName us roleApproval) None None)
              else None
          | None => None
          end
      | None => None
      end
    else None
  else if String.eqb (ApprovalRule.ruleType rule) "HYBRID" then
    let percentageThreshold := hybridPercentageThreshold rule in
    let specificRole := hybridSpecificRole rule in
    let percentageSatisfied :=
      Js.lengthGe (List.length approvedApprovals)
        (requiredApprovals totalApprovals (Js.toNumber percentageThreshold)) in
    let specificSatisfied :=
      if Js.truthy specificRole then roleApproved specificRole else false in
    if percentageSatisfied || specificSatisfied
    then Some (Verdict.mk (Some "APPROVED"%string)
                 "Hybrid rule satisfied"
                 None None (Some approvedNames) None None)
    else None
  else None.

(** The [for] loop: the first rule whose body returns decides. *)
Fixpoint evalRules (rules : list ApprovalRule.t) : option Verdict.t :=
  match rules with
  | [] => None
  | rule :: rest =>
      match evalRule rule with
      | Some v => Some v
      | None => evalRules rest
      end
  end.

(** The body of [evaluateApprovalRules] after the three queries. *)
Definition evaluate (rules : list ApprovalRule.t) : Verdict.t :=
  match find isRejected approvals with
  | Some rejectedApproval =>
      Verdict.mk (Some "REJECTED"%string) "Rejected by approver"
        (approverFullName us rejectedApproval)
        (ExpenseApproval.comment rejectedApproval)
        None None None
  | None =>
      match evalRules rules with
      | Some v => v
      | None =>
          if (Nat.eqb (List.length pendingApprovals) 0)
             && (Nat.ltb 0 (List.length approvedApprovals))
          then Verdict.mk (Some "APPROVED"%string) "All approvals completed"
                 None None (Some approvedNames) None None
          else Verdict.mk None "Awaiting more approvals"
                 None None None
                 (Some (List.length pendingApprovals)) (Some totalApprovals)
      end
  end.

End Evaluate.

(** [evaluateApprovalRules(expenseId)]: reads the store, never writes it. *)
Definition evaluateApprovalRules (db : DB) (expenseId : Z) : string + Verdict.t :=
  match expense_findUnique db expenseId with
  | None => inl "Expense not found"%string
  | Some expense =>
      let approvals := expenseApproval_findMany db expenseId in
      let rules := approvalRule_findMany db (Expense.companyId expense) in
      inr (evaluate (users db) approvals rules)
  end.

(** ** Workflow coordinator: [processApproval] *)

Local Open Scope prisma_scope.

(** The [where] clause of the [updateMany] in [processApproval]:
    [{ expenseId, approverId, status: 'PENDING' }]. *)
Definition pendingFor (expenseId approverId : Z) (a : ExpenseApproval.t) : bool :=
  (ExpenseApproval.expenseId a =? expenseId)
  && Js.eqNum (ExpenseApproval.approverId a) approverId
  && isPending a.

(** [prisma.expenseApproval.updateMany({ where, data: { status, comment } })]:
    every matching row is rewritten; the result is the number of matches. *)
Definition expenseApproval_updateMany (expenseId approverId : Z)
    (decision : string) (comment : option string) : Prisma nat :=
  fun db =>
    let hit := pendingFor expenseId approverId in
    (inr (List.length (filter hit (expenseApprovals db))),
     setExpenseApprovals
       (map (fun a => if hit a then ExpenseApproval.withDecision decision comment a else a)
            (expenseApprovals db))
       (expenseApprovalSeq db) db).

(** [prisma.expense.update({ where: { id }, data: { status } })]; Prisma
    throws when no row has the id. *)
Definition expense_update (expenseId : Z) (status : string) : Prisma unit :=
  fun db =>
    match expense_findUnique db expenseId with
    | None => (inl "Record to update not found"%string, db)
    | Some _ =>
        (inr tt,
         setExpenses
           (map (fun e => if Expense.id e =? expenseId then Expense.withStatus status e else e)
                (expenses db))
           db)
    end.

(** A read-only call of the evaluator inside a store computation. *)
Definition awaitEvaluate (expenseId : Z) : Prisma Verdict.t :=
  fun db => (evaluateApprovalRules db expenseId, db).

(** [processApproval(expenseId, approverId, decision, comment = null)]. *)
Definition processApproval (expenseId approverId : Z)
    (decision : string) (comment : option string) : Prisma Verdict.t :=
  await count <- expenseApproval_updateMany expenseId approverId decision comment ;;
  if Nat.eqb count 0 then throw "No pending approval found for this user"
  else
    await result <- awaitEvaluate expenseId ;;
    if Js.truthyStr (Verdict.finalDecision result) then
      match Verdict.finalDecision result with
      | Some finalDecision => expense_update expenseId finalDecision ;;; ret result
      | None => ret result
      end
    else ret result.

(** ** Decision routes: [POST /:id/approve] and [POST /:id/reject]

    Each route is [router.post(path, approvalValidation, requireManager,
    handler)]. The validation chain only records its errors; the
    handler reads them. [requireManager] is imported from
    [middleware/auth], which is not among the sources at hand: the routes
    take it as a parameter, a guard that either answers the request
    itself or lets it through to the handler, without writing to the
    store. [approverId] is [req.user.id]; [comment] is the already
    trimmed body field. *)

Module Response.
Record t := mk {
  code : Z;
  message : option string;
  error : option string;
  result : option Verdict.t
}.
End Response.

(** The guard: [Some r] when it answers the request with [r]. *)
Definition Guard : Type := DB -> Z -> option Response.t.

(** [approvalValidation]: [body('decision').isIn(['APPROVED', 'REJECTED'])]. *)
Definition approvalValidation (bodyDecision : option string) : bool :=
  Js.eqStr bodyDecision "APPROVED" || Js.eqStr bodyDecision "REJECTED".

(** [prisma.expenseApproval.findFirst({ where: { id, approverId, status: 'PENDING' } })]. *)
Definition expenseApproval_findFirstPending (db : DB) (approvalId approverId : Z)
  : option ExpenseApproval.t :=
  find (fun a => (ExpenseApproval.id a =? approvalId)
                 && Js.eqNum (ExpenseApproval.approverId a) approverId
                 && isPending a) (expenseApprovals db).

Definition decisionRoute (requireManager : Guard)
    (decision okMessage failMessage : string)
    (approvalId approverId : Z) (bodyDecision comment : option string)
    (db : DB) : Response.t * DB :=
  match requireManager db approverId with
  | Some refusal => (refusal, db)
  | None =>
      if negb (approvalValidation bodyDecision) then
        (Response.mk 400 None (Some "Validation failed"%string) None, db)
      else
        match expenseApproval_findFirstPending db approvalId approverId with
        | None =>
            (Response.mk 404 None
               (Some "Approval not found or already processed"%string) None, db)
        | Some approval =>
            match processApproval (ExpenseApproval.expenseId approval) approverId
                    decision comment db with
            | (inr result, db') => (Response.mk 200 (Some okMessage) None (Some result), db')
            | (inl _, db') => (Response.mk 500 None (Some failMessage) None, db')
            end
        end
  end.

Definition approveRoute (requireManager : Guard) :=
  decisionRoute requireManager
    "APPROVED" "Expense approved successfully" "Failed to approve expense".


(** ** Sequence builder: [createApprovalSequence] *)

(** An id read from a row, as the number the local [approverId] holds. *)
Definition idValue (n : Z) : Js.value := Js.VNum (Js.Fin (inject_Z n)).

(** The integer a value stands for, if it is one: the [approverId]
    column is an INTEGER, and Prisma refuses anything else. *)
Definition asInt (v : Js.value) : option Z :=
  match v with
  | Js.VNum (Js.Fin q) =>
      if Qeq_bool q (inject_Z (Qfloor q)) then Some (Qfloor q) else None
  | _ => None
  end.

(** [prisma.expenseApproval.create({ data: { expenseId, approverId,
    approverRole, order, status: 'PENDING' } })]. Both [expenseId] and
    [approverId] are foreign keys: the insertion is refused, and nothing
    is written, unless the expense and the user exist. *)
Definition expenseApproval_create (expenseId approverId : Z)
    (approverRole : option string) (order : Z) : Prisma ExpenseApproval.t :=
  fun db =>
    match expense_findUnique db expenseId, user_findUnique db approverId with
    | Some _, Some _ =>
        let id := expenseApprovalSeq db + 1 in
        let row := ExpenseApproval.mk id expenseId (Some approverId) approverRole
                     "PENDING" None order in
        (inr row, setExpenseApprovals (expenseApprovals db ++ [row]) id db)
    | _, _ => (inl "P2003: Foreign key constraint failed"%string, db)
    end.

(** The [if / else if] chain of the loop body: the values left in the
    locals [approverId] and [approverRole]. In the role branch
    [step.value.toUpperCase()] throws unless [step.value] is a string. *)
Definition resolveStep (companyId userId : Z) (step : Js.value)
  : Prisma (Js.value * option string) :=
  fun db =>
    if Js.strictEqStr (Js.get step Js.PType) "user" then
      (inr (Js.get step Js.PValue, None), db)
    else if Js.strictEqStr (Js.get step Js.PType) "role" then
      match Js.get step Js.PValue with
      | Js.VStr s =>
          match user_findFirstByRole db companyId (Js.toUpperCase s) with
          | Some approver => (inr (idValue (User.id approver), Some (Js.toUpperCase s)), db)
          | None => (inr (Js.VNull, None), db)
          end
      | Js.VUndefined | Js.VNull =>
          (inl "TypeError: Cannot read properties of undefined"%string, db)
      | _ => (inl "TypeError: step.value.toUpperCase is not a function"%string, db)
      end
    else if Js.strictEqStr (Js.get step Js.PType) "manager" then
      match user_findUnique db userId with
      | Some user =>
          match user_manager db user with
          | Some manager => (inr (idValue (User.id manager), Some "MANAGER"%string), db)
          | None => (inr (Js.VNull, None), db)
          end
      | None => (inr (Js.VNull, None), db)
      end
    else (inr (Js.VNull, None), db).

(** [for (let i = 0; i < sequenceSteps.length; i++)], from index [i] on,
    with the rows pushed to [approvals] so far; [steps] are the values
    [sequenceSteps[i]], [sequenceSteps[i + 1]], ... *)
Fixpoint forSteps (expenseId companyId userId : Z) (steps : list Js.value)
    (i : Z) (approvals : list ExpenseApproval.t) : Prisma (list ExpenseApproval.t) :=
  match steps with
  | [] => ret approvals
  | step :: rest =>
      await r <- resolveStep companyId userId step ;;
      if Js.truthy (fst r) then
        match asInt (fst r) with
        | Some approverId =>
            await approval <- expenseApproval_create expenseId approverId (snd r) i ;;
            forSteps expenseId companyId userId rest (i + 1) (approvals ++ [approval])
        | None => throw "PrismaClientValidationError: approverId: expected Int"
        end
      else forSteps expenseId companyId userId rest (i + 1) approvals
  end.

(** [createApprovalSequence(expenseId, companyId, userId)]. The stored
    [sequence] is a string, which the code does not parse: [sequenceSteps]
    is that string, [sequenceSteps.length] its length and
    [sequenceSteps[i]] its [i]-th character. [sequence && sequence.sequence]
    is falsy when no row is found and when the string is empty. *)
Definition createApprovalSequence (expenseId companyId userId : Z)
  : Prisma (list ExpenseApproval.t) :=
  fun db =>
    let sequence := approvalSequence_findFirst db companyId in
    let sequenceSteps :=
      match sequence with
      | Some s => ApprovalSequence.sequence s
      | None => EmptyString
      end in
    if negb (String.eqb sequenceSteps "") then
      forSteps expenseId companyId userId (Js.chars sequenceSteps) 0 [] db
    else
      match user_findUnique db userId with
      | Some user =>
          match user_manager db user with
          | Some manager =>
              (await approval <-
                 expenseApproval_create expenseId (User.id manager)
                   (Some "MANAGER"%string) 0 ;;
               ret [approval]) db
          | None => ret [] db
          end
      | None => ret [] db
      end.

Local Close Scope prisma_scope.

(** ** Sequences of decisions *)

(** One call of [processApproval], as issued by a decision route. *)
Module Action.
Record t := mk {
  expenseId : Z;
  approverId : Z;
  decision : string;
  comment : option string
}.
End Action.

(** The store after a series of [processApproval] calls; a call that
    throws leaves whatever it wrote before throwing. *)
Fixpoint runActions (acts : list Action.t) (db : DB) : DB :=
  match acts with
  | [] => db
  | act :: rest =>
      runActions rest
        (snd (processApproval (Action.expenseId act) (Action.approverId act)
                (Action.decision act) (Action.comment act) db))
  end.

(** The [status] column of an expense. *)
Definition expenseStatus (db : DB) (expenseId : Z) : option string :=
  option_map Expense.status (expense_findUnique db expenseId).

(** The steps of one expense, in table order. *)
Definition stepsOf (db : DB) (expenseId : Z) : list ExpenseApproval.t :=
  filter (fun a => ExpenseApproval.expenseId a =? expenseId) (expenseApprovals db).

(** What the [updateMany] of [processApproval] makes of one row. *)
Definition decided (expenseId approverId : Z) (decision : string)
    (comment : option string) (a : ExpenseApproval.t) : ExpenseApproval.t :=
  if pendingFor expenseId approverId a
  then ExpenseApproval.withDecision decision comment a
  else a.

(** The store once that [updateMany] has run. *)
Definition afterUpdateMany (expenseId approverId : Z) (decision : string)
    (comment : option string) (db : DB) : DB :=
  setExpenseApprovals
    (map (decided expenseId approverId decision comment) (expenseApprovals db))
    (expenseApprovalSeq db) db.

(** The store once [prisma.expense.update] has set a status. *)
Definition afterExpenseUpdate (expenseId : Z) (status : string) (db : DB) : DB :=
  setExpenses
    (map (fun e => if Expense.id e =? expenseId then Expense.withStatus status e else e)
         (expenses db))
    db.

(** The four ways [processApproval] can end. *)
Inductive Outcome (e u : Z) (d : string) (c : option string) (db : DB)
  : (string + Verdict.t) * DB -> Prop :=
| NoPending :
    (forall a, In a (expenseApprovals db) -> pendingFor e u a = false) ->
    Outcome e u d c db (inl "No pending approval found for this user"%string, db)
| NoExpense :
    expense_findUnique db e = None ->
    Outcome e u d c db (inl "Expense not found"%string, afterUpdateMany e u d c db)
| Final expense v verdict :
    (exists a, In a (expenseApprovals db) /\ pendingFor e u a = true) ->
    expense_findUnique db e = Some expense ->
    v = evaluate (users db)
          (expenseApproval_findMany (afterUpdateMany e u d c db) e)
          (approvalRule_findMany db (Expense.companyId expense)) ->
    Verdict.finalDecision v = Some verdict ->
    Outcome e u d c db
      (inr v, afterExpenseUpdate e verdict (afterUpdateMany e u d c db))
| Open expense v :
    (exists a, In a (expenseApprovals db) /\ pendingFor e u a = true) ->
    expense_findUnique db e = Some expense ->
    v = evaluate (users db)
          (expenseApproval_findMany (afterUpdateMany e u d c db) e)
          (approvalRule_findMany db (Expense.companyId expense)) ->
    Verdict.finalDecision v = None ->
    Outcome e u d c db (inr v, afterUpdateMany e u d c db).

(** An expense settled as REJECTED: its status says so and one of its
    steps is REJECTED. *)
Definition settledRejected (db : DB) (expenseId : Z) : Prop :=
  expenseStatus db expenseId = Some "REJECTED"%string
  /\ exists a, In a (expenseApprovals db)
             /\ ExpenseApproval.expenseId a = expenseId
             /\ ExpenseApproval.status a = "REJECTED"%string.

(** An expense settled as APPROVED: its status says so and none of its
    steps is REJECTED. *)
Definition settledApproved (db : DB) (expenseId : Z) : Prop :=
  expenseStatus db expenseId = Some "APPROVED"%string
  /\ forall a, In a (expenseApprovals db) ->
              ExpenseApproval.expenseId a = expenseId ->
              ExpenseApproval.status a <> "REJECTED"%string.

(** ** A sample company *)

Module Sample.

Definition ada := User.mk 1 "Ada Admin" "ADMIN" 1 None true.
Definition mary := User.mk 2 "Mary Manager" "MANAGER" 1 None true.
Definition eve := User.mk 3 "Eve Employee" "EMPLOYEE" 1 (Some 4) true.
Definition max := User.mk 4 "Max Manager" "MANAGER" 1 None true.
Definition emil := User.mk 5 "Emil Employee" "EMPLOYEE" 1 (Some 2) true.
Definition sol := User.mk 6 "Sol Solo" "EMPLOYEE" 1 None true.

Definition staff := [ada; mary; eve; max; emil; sol].

(** Expenses 1, 2 and 3, submitted by Eve, Emil and Sol. *)
Definition claims :=
  [Expense.mk 1 3 1 "PENDING"; Expense.mk 2 5 1 "PENDING"; Expense.mk 3 6 1 "PENDING"].

(** The double quote, and a quoted JSON string. *)
Definition dq : string := String (ascii_of_nat 34) EmptyString.
Definition quoted (s : string) : string := (dq ++ s ++ dq)%string.

(** The definition that [scripts/seed.js] stores:
    [JSON.stringify([{ type: 'manager', value: null },
                     { type: 'role', value: 'MANAGER' }])]. *)
Definition seedSequence : string :=
  ("[{" ++ quoted "type" ++ ":" ++ quoted "manager" ++ "," ++ quoted "value" ++ ":null},{"
        ++ quoted "type" ++ ":" ++ quoted "role" ++ "," ++ quoted "value" ++ ":"
        ++ quoted "MANAGER" ++ "}]")%string.

(** The doubles that the literals 0.28, 0.2, 0.145 and 1.5 denote. *)
Definition d028 : Js.double := Js.mkDouble 1261007895663739 (-52) eq_refl.
Definition d020 : Js.double := Js.mkDouble 3602879701896397 (-54) eq_refl.
Definition d0145 : Js.double := Js.mkDouble 5224175567749775 (-55) eq_refl.
Definition d150 : Js.double := Js.mkDouble 3 (-1) eq_refl.

(** [d] is the double nearest to the rational [x]. *)
Definition nearest (x : Q) (d : Js.double) : Prop :=
  match Js.round64 x with
  | Js.Fin q => (q == Js.toQ d)%Q
  | _ => False
  end.

Definition percentage (t : Js.double) :=
  ApprovalRule.mk 1 1 "PERCENTAGE" (Some t) None None None true.
Definition specificRole (r : string) :=
  ApprovalRule.mk 2 1 "SPECIFIC" None None (Some r) None true.
Definition hybridBare :=
  ApprovalRule.mk 3 1 "HYBRID" None None None None true.

(** A step row as [createApprovalSequence] leaves it, then decided. *)
Definition step (id expenseId approverId : Z) (role : option string)
    (status : string) (order : Z) :=
  ExpenseApproval.mk id expenseId (Some approverId) role status None order.

(** Two of three steps approved, the third rejected, under a 50%
    percentage rule the approvals alone would satisfy. *)
Definition rejectedThird : DB :=
  mkDB staff claims
    [step 1 1 2 (Some "MANAGER"%string) "APPROVED" 0;
     step 2 1 4 None "APPROVED" 1;
     step 3 1 1 (Some "ADMIN"%string) "REJECTED" 2]
    3 [percentage half] [].

(** Expense 1 with two pending steps labelled MANAGER, the first for
    Max, the second for Mary, under a SPECIFIC rule for that role. *)
Definition twoManagers : DB :=
  mkDB staff claims
    [step 1 1 4 (Some "MANAGER"%string) "PENDING" 0;
     step 2 1 2 (Some "MANAGER"%string) "PENDING" 1]
    2 [specificRole "MANAGER"] [].

(** Expense 1 with a pending step for Max and a pending step for Mary,
    under a 50% percentage rule. *)
Definition halfSuffices : DB :=
  mkDB staff claims
    [step 1 1 4 (Some "MANAGER"%string) "PENDING" 0;
     step 2 1 2 None "PENDING" 1]
    2 [percentage half] [].

(** Expense 2 with two pending steps that both name Mary. *)
Definition sameApproverTwice : DB :=
  mkDB staff claims
    [step 1 2 2 (Some "MANAGER"%string) "PENDING" 0;
     step 2 2 2 (Some "MANAGER"%string) "PENDING" 1]
    2 [] [].

(** The seeded sequence definition, no step yet. *)
Definition seeded : DB :=
  mkDB staff claims [] 0 [] [ApprovalSequence.mk 1 1 seedSequence true].

(** No sequence definition at all; a 50% percentage rule is active. *)
Definition noSequence : DB :=
  mkDB staff claims [] 0 [percentage half] [].

(** [n] steps of expense 1, the first [k] of them approved and the
    others pending. *)
Definition manySteps (n k : nat) : list ExpenseApproval.t :=
  map (fun i => step (Z.of_nat i + 1) 1 2 None
                  (if Nat.ltb i k then "APPROVED" else "PENDING")%string (Z.of_nat i))
      (seq 0 n).

(** The object [{ type, value }], which a parsed definition would hold. *)
Definition stepObject (type : string) (value : Js.value) : Js.value :=
  Js.VObj (Js.FCons Js.PType (Js.VStr type) (Js.FCons Js.PValue value Js.FNil)).

(** A guard that lets managers and administrators through. *)
Definition managersOnly : Guard :=
  fun db uid =>
    match user_findUnique db uid with
    | Some u =>
        if String.eqb (User.role u) "MANAGER" || String.eqb (User.role u) "ADMIN"
        then None
        else Some (Response.mk 403 None (Some "Insufficient permissions"%string) None)
    | None => Some (Response.mk 401 None (Some "Not authenticated"%string) None)
    end.

End Sample.

(** A [status] value the engine itself writes. *)
Definition knownStatus (a : ExpenseApproval.t) : Prop :=
  ExpenseApproval.status a = "PENDING"%string
  \/ ExpenseApproval.status a = "APPROVED"%string
  \/ ExpenseApproval.status a = "REJECTED"%string.


(** ** Cancellation route: [DELETE /api/expenses/:id] *)

(** [prisma.expense.findFirst({ where: { id, userId, status: 'PENDING' } })]. *)
Definition expense_findFirstPending (db : DB) (expenseId userId : Z) : option Expense.t :=
  find (fun e => (Expense.id e =? expenseId)
                 && (Expense.userId e =? userId)
                 && String.eqb (Expense.status e) "PENDING") (expenses db).

(** The handler: only the owner's PENDING expense is cancelled; the
    approval steps of the expense are not touched. *)
Definition cancelRoute (expenseId userId : Z) (db : DB) : Response.t * DB :=
  match expense_findFirstPending db expenseId userId with
  | None =>
      (Response.mk 404 None (Some "Expense not found or cannot be cancelled"%string) None, db)
  | Some _ =>
      match expense_update expenseId "CANCELLED" db with
      | (inr _, db') =>
          (Response.mk 200 (Some "Expense cancelled successfully"%string) None None, db')
      | (inl _, db') =>
          (Response.mk 500 None (Some "Failed to cancel expense"%string) None, db')
      end
  end.

(** ** Vocabulary of the further properties *)

(** A rule type the evaluator has a branch for. *)
Definition knownRuleType (r : ApprovalRule.t) : bool :=
  String.eqb (ApprovalRule.ruleType r) "PERCENTAGE"
  || String.eqb (ApprovalRule.ruleType r) "SPECIFIC"
  || String.eqb (ApprovalRule.ruleType r) "HYBRID".

(** A rule with another config text. *)
Definition withConfig (config : option string) (r : ApprovalRule.t) : ApprovalRule.t :=
  ApprovalRule.mk (ApprovalRule.id r) (ApprovalRule.companyId r) (ApprovalRule.ruleType r)
    (ApprovalRule.threshold r) (ApprovalRule.specificApproverId r)
    (ApprovalRule.specificRole r) config (ApprovalRule.isActive r).

(** Two rows that agree on every column a decision never writes. *)
Definition sameStep (a b : ExpenseApproval.t) : Prop :=
  ExpenseApproval.id a = ExpenseApproval.id b
  /\ ExpenseApproval.expenseId a = ExpenseApproval.expenseId b
  /\ ExpenseApproval.approverId a = ExpenseApproval.approverId b
  /\ ExpenseApproval.approverRole a = ExpenseApproval.approverRole b
  /\ ExpenseApproval.order a = ExpenseApproval.order b.

(** Two stores that agree on everything but the expense and step rows. *)
Definition sameSetup (db db' : DB) : Prop :=
  users db' = users db
  /\ approvalRules db' = approvalRules db
  /\ approvalSequences db' = approvalSequences db.

(** A row as [createApprovalSequence] writes it for an expense. *)
Definition freshStep (expenseId : Z) (a : ExpenseApproval.t) : Prop :=
  ExpenseApproval.expenseId a = expenseId
  /\ ExpenseApproval.status a = "PENDING"%string
  /\ ExpenseApproval.comment a = None
  /\ exists n, ExpenseApproval.approverId a = Some n.

(** Sample stores for the further properties. *)
Module Sample2.

(** Expense 1 with Max's MANAGER step approved and Mary's step pending,
    under a 50% rule: the expense is settled as APPROVED. *)
Definition approvedByMax : DB :=
  snd (processApproval 1 4 "APPROVED" None Sample.halfSuffices).

(** Expense 1 with both steps pending, no rule. *)
Definition twoPending : DB :=
  mkDB Sample.staff Sample.claims
    [Sample.step 1 1 4 (Some "MANAGER"%string) "PENDING" 0;
     Sample.step 2 1 2 None "PENDING" 1]
    2 [] [].

(** A rule of a type the evaluator does not know. *)
Definition oddRule : ApprovalRule.t :=
  ApprovalRule.mk 9 1 "UNANIMOUS" None None None None true.

(** A percentage rule whose threshold column is null. *)
Definition percentageNull : ApprovalRule.t :=
  ApprovalRule.mk 4 1 "PERCENTAGE" None None None None true.

(** A hybrid rule whose config text is the JSON object with
    [percentageThreshold] 0.75 and [specificRole] ADMIN. *)
Definition hybridAdmin : ApprovalRule.t :=
  ApprovalRule.mk 5 1 "HYBRID" None None None
    (Some ("{" ++ Sample.quoted "percentageThreshold" ++ ":0.75,"
               ++ Sample.quoted "specificRole" ++ ":" ++ Sample.quoted "ADMIN" ++ "}")%string)
    true.

End Sample2.



(** The bound below which every integer is a double; an array length
    is below 2^32. *)
Definition exactLength (n : nat) : Prop := Z.of_nat n < 2 ^ 53.

(** * Properties *)

(** ** Lists, sorting and lookups *)

Lemma find_is_Some {A} (p : A -> bool) (l : list A) (x : A) :
  In x l -> p x = true -> exists y, find p l = Some y.
Proof.
  intros Hin Hp. destruct (find p l) as [y|] eqn:E.
  - now exists y.
  - apply (find_none _ _ E) in Hin. congruence.
Qed.

Lemma In_insertByOrder a x l : In x (insertByOrder a l) <-> x = a \/ In x l.
Proof.
  induction l as [|b r IH]; simpl.
  - intuition.
  - destruct (ExpenseApproval.order a <=? ExpenseApproval.order b); simpl.
    + intuition.
    + rewrite IH. intuition.
Qed.

Lemma In_sortByOrder x l : In x (sortByOrder l) <-> In x l.
Proof.
  induction l as [|a r IH]; simpl.
  - tauto.
  - rewrite In_insertByOrder, IH. intuition.
Qed.

Lemma length_insertByOrder a l : List.length (insertByOrder a l) = S (List.length l).
Proof.
  induction l as [|b r IH]; simpl; trivial.
  destruct (ExpenseApproval.order a <=? ExpenseApproval.order b); simpl; congruence.
Qed.

Lemma length_sortByOrder l : List.length (sortByOrder l) = List.length l.
Proof.
  induction l as [|a r IH]; simpl; trivial.
  now rewrite length_insertByOrder, IH.
Qed.

Lemma In_findMany db eid a :
  In a (expenseApproval_findMany db eid) <->
  In a (expenseApprovals db) /\ ExpenseApproval.expenseId a = eid.
Proof.
  unfold expenseApproval_findMany.
  rewrite In_sortByOrder, filter_In, Z.eqb_eq. tauto.
Qed.

(** ** The evaluator *)

(** When the expense exists, [evaluateApprovalRules] is [evaluate] on
    the rows of its three queries. *)
Lemma evaluateApprovalRules_found db expenseId expense :
  expense_findUnique db expenseId = Some expense ->
  evaluateApprovalRules db expenseId
  = inr (evaluate (users db) (expenseApproval_findMany db expenseId)
           (approvalRule_findMany db (Expense.companyId expense))).
Proof. unfold evaluateApprovalRules. now intros ->. Qed.

Lemma evaluate_rejected us approvals rules a :
  In a approvals -> isRejected a = true ->
  Verdict.finalDecision (evaluate us approvals rules) = Some "REJECTED"%string
  /\ Verdict.reason (evaluate us approvals rules) = "Rejected by approver"%string.
Proof.
  intros Hin Hrej. unfold evaluate.
  destruct (find_is_Some isRejected approvals a Hin Hrej) as [y ->].
  split; reflexivity.
Qed.

Lemma evalRule_approves us approvals rule v :
  evalRule us approvals rule = Some v ->
  Verdict.finalDecision v = Some "APPROVED"%string.
Proof.
  unfold evalRule; intros H.
  repeat match type of H with
         | (if ?c then _ else _) = _ => destruct c
         | match ?c with _ => _ end = _ => destruct c
         | Some _ = Some _ => injection H as <-
         end; try discriminate; reflexivity.
Qed.

Lemma evalRules_approves us approvals rules v :
  evalRules us approvals rules = Some v ->
  Verdict.finalDecision v = Some "APPROVED"%string.
Proof.
  induction rules as [|r rs IH]; simpl; [discriminate|].
  destruct (evalRule us approvals r) as [w|] eqn:E.
  - intros [= <-]. eapply evalRule_approves; eassumption.
  - exact IH.
Qed.

Lemma evalRules_None us approvals rules :
  evalRules us approvals rules = None <->
  forall r, In r rules -> evalRule us approvals r = None.
Proof.
  induction rules as [|r rs IH]; simpl.
  - split; [intros _ ? [] | trivial].
  - destruct (evalRule us approvals r) as [w|] eqn:E.
    + split; [discriminate|]. intros H. rewrite <- E. apply H. now left.
    + rewrite IH. split.
      * intros H r' [<-|Hin]; auto.
      * intros H r' Hin. apply H. now right.
Qed.

Lemma evalRules_Some_of_In us approvals rules r v :
  In r rules -> evalRule us approvals r = Some v ->
  exists w, evalRules us approvals rules = Some w.
Proof.
  intros Hin Hr. destruct (evalRules us approvals rules) as [w|] eqn:E.
  - now exists w.
  - rewrite evalRules_None in E. rewrite (E r Hin) in Hr. discriminate.
Qed.

(** With no rejected step, a matching rule anywhere in the list makes
    the verdict APPROVED. *)
Lemma evaluate_rule_match us approvals rules r v :
  find isRejected approvals = None ->
  In r rules -> evalRule us approvals r = Some v ->
  Verdict.finalDecision (evaluate us approvals rules) = Some "APPROVED"%string.
Proof.
  intros Hrej Hin Hr. unfold evaluate. rewrite Hrej.
  destruct (evalRules_Some_of_In _ _ _ _ _ Hin Hr) as [w Hw].
  rewrite Hw. eapply evalRules_approves; eassumption.
Qed.

(** C1. Whenever some step of the expense has status REJECTED,
    [evaluateApprovalRules] returns the verdict REJECTED with reason
    "Rejected by approver", whatever rules the company has configured
    and whatever the status of the other steps: the rejection check runs
    before any rule is looked at. *)
Theorem C1_rejection_dominates db expenseId expense a :
  expense_findUnique db expenseId = Some expense ->
  In a (expenseApprovals db) ->
  ExpenseApproval.expenseId a = expenseId ->
  ExpenseApproval.status a = "REJECTED"%string ->
  exists v,
    evaluateApprovalRules db expenseId = inr v
    /\ Verdict.finalDecision v = Some "REJECTED"%string
    /\ Verdict.reason v = "Rejected by approver"%string.
Proof.
  intros Hexp Hin Hid Hst. unfold evaluateApprovalRules. rewrite Hexp.
  eexists; split; [reflexivity|].
  apply evaluate_rejected with (a := a).
  - apply In_findMany; auto.
  - unfold isRejected. rewrite Hst. reflexivity.
Qed.

Lemma C1_rejection_dominates_witness :
  exists v,
    evaluateApprovalRules Sample.rejectedThird 1 = inr v
    /\ Verdict.finalDecision v = Some "REJECTED"%string
    /\ Verdict.reason v = "Rejected by approver"%string.
Proof.
  apply (C1_rejection_dominates Sample.rejectedThird 1 (Expense.mk 1 3 1 "PENDING")
           (Sample.step 3 1 1 (Some "ADMIN"%string) "REJECTED" 2)).
  - reflexivity.
  - simpl. right. right. left. reflexivity.
  - reflexivity.
  - reflexivity.
Defined.

(** The default branch of [evaluate], reached when no rule matched. *)
Lemma evaluate_default us approvals rules :
  find isRejected approvals = None ->
  evalRules us approvals rules = None ->
  evaluate us approvals rules
  = if Nat.eqb (List.length (filter isPending approvals)) 0
       && Nat.ltb 0 (List.length (filter isApproved approvals))
    then Verdict.mk (Some "APPROVED"%string) "All approvals completed"
           None None (Some (approvedNames us approvals)) None None
    else Verdict.mk None "Awaiting more approvals" None None None
           (Some (List.length (filter isPending approvals)))
           (Some (List.length approvals)).
Proof.
  intros Hrej Hrules. unfold evaluate. now rewrite Hrej, Hrules.
Qed.

(** C6. With no rejected step and no matching rule, the verdict is
    APPROVED (reason "All approvals completed") exactly when no step is
    pending and at least one is approved; in every other such case the
    verdict is null and the result carries the number of pending steps. *)
Theorem C6_default_policy us approvals rules :
  find isRejected approvals = None ->
  evalRules us approvals rules = None ->
  let pending := List.length (filter isPending approvals) in
  let approved := List.length (filter isApproved approvals) in
  let v := evaluate us approvals rules in
  (Verdict.finalDecision v = Some "APPROVED"%string
   <-> pending = 0%nat /\ (1 <= approved)%nat)
  /\ (pending = 0%nat /\ (1 <= approved)%nat ->
      Verdict.reason v = "All approvals completed"%string)
  /\ (~ (pending = 0%nat /\ (1 <= approved)%nat) ->
      Verdict.finalDecision v = None
      /\ Verdict.pendingApprovals v = Some pending
      /\ Verdict.totalApprovals v = Some (List.length approvals)).
Proof.
  intros Hrej Hrules pending approved v.
  subst v. rewrite (evaluate_default us approvals rules Hrej Hrules).
  fold pending approved.
  destruct (Nat.eqb_spec pending 0) as [Ep|Ep];
    destruct (Nat.ltb_spec 0 approved) as [Ea|Ea]; simpl.
  all: repeat split; intros; try discriminate; try reflexivity; try lia.
  all: try (exfalso; lia).
Qed.

Lemma C6_default_policy_witness :
  let approvals :=
    [Sample.step 1 1 2 (Some "MANAGER"%string) "APPROVED" 0;
     Sample.step 2 1 4 None "APPROVED" 1;
     Sample.step 3 1 1 None "APPROVED" 2] in
  let v := evaluate Sample.staff approvals [] in
  (Verdict.finalDecision v = Some "APPROVED"%string <-> 0%nat = 0%nat /\ (1 <= 3)%nat)
  /\ (0%nat = 0%nat /\ (1 <= 3)%nat ->
      Verdict.reason v = "All approvals completed"%string)
  /\ (~ (0%nat = 0%nat /\ (1 <= 3)%nat) ->
      Verdict.finalDecision v = None
      /\ Verdict.pendingApprovals v = Some 0%nat
      /\ Verdict.totalApprovals v = Some 3%nat).
Proof.
  intros approvals v.
  apply (C6_default_policy Sample.staff approvals []); reflexivity.
Defined.

(** The two default-policy scenarios of the specification: three steps
    all approved, and two approved with one pending, no rules. *)
Example default_all_approved :
  let v := evaluate Sample.staff
             [Sample.step 1 1 2 None "APPROVED" 0;
              Sample.step 2 1 4 None "APPROVED" 1;
              Sample.step 3 1 1 None "APPROVED" 2] [] in
  Verdict.finalDecision v = Some "APPROVED"%string
  /\ Verdict.reason v = "All approvals completed"%string.
Proof. split; reflexivity. Qed.

Example default_one_pending :
  let v := evaluate Sample.staff
             [Sample.step 1 1 2 None "APPROVED" 0;
              Sample.step 2 1 4 None "APPROVED" 1;
              Sample.step 3 1 1 None "PENDING" 2] [] in
  Verdict.finalDecision v = None /\ Verdict.pendingApprovals v = Some 1%nat.
Proof. split; reflexivity. Qed.

(** ** Specific-role rules *)

(** C4, as the code has it. Under a SPECIFIC rule that names a role and
    no user, with no rejected step: when the first step in ascending
    [order] that carries the rule's role label is APPROVED the verdict is
    APPROVED; when that first step is not APPROVED the rule does not
    match, whatever the status of later steps with the same label. *)
Theorem C4_specific_role_first_step us approvals rules rule role first :
  find isRejected approvals = None ->
  In rule rules ->
  ApprovalRule.ruleType rule = "SPECIFIC"%string ->
  Js.truthyNum (ApprovalRule.specificApproverId rule) = false ->
  ApprovalRule.specificRole rule = Some role ->
  role <> ""%string ->
  find (fun a => Js.eqStr (ExpenseApproval.approverRole a) role) approvals = Some first ->
  (ExpenseApproval.status first = "APPROVED"%string ->
   Verdict.finalDecision (evaluate us approvals rules) = Some "APPROVED"%string)
  /\ (ExpenseApproval.status first <> "APPROVED"%string ->
      evalRule us approvals rule = None).
Proof.
  intros Hrej Hin Hty Hno Hrole Hne Hfirst.
  assert (Hrule : evalRule us approvals rule =
                  if isApproved first
                  then Some (Verdict.mk (Some "APPROVED"%string)
                               ("Specific role (" ++ role ++ ") approved")%string
                               None None (approverFullName us first) None None)
                  else None).
  { unfold evalRule. rewrite Hty. simpl. rewrite Hno, Hrole. simpl.
    apply String.eqb_neq in Hne. rewrite Hne. simpl. rewrite Hfirst. reflexivity. }
  split.
  - intros Hst. unfold isApproved in Hrule. rewrite Hst in Hrule. simpl in Hrule.
    eapply evaluate_rule_match; eassumption.
  - intros Hst. rewrite Hrule. unfold isApproved.
    apply String.eqb_neq in Hst. now rewrite Hst.
Qed.

Lemma C4_specific_role_first_step_witness :
  let approvals :=
    [Sample.step 1 1 4 (Some "MANAGER"%string) "APPROVED" 0;
     Sample.step 2 1 2 (Some "MANAGER"%string) "PENDING" 1] in
  let first := Sample.step 1 1 4 (Some "MANAGER"%string) "APPROVED" 0 in
  (ExpenseApproval.status first = "APPROVED"%string ->
   Verdict.finalDecision
     (evaluate Sample.staff approvals [Sample.specificRole "MANAGER"])
   = Some "APPROVED"%string)
  /\ (ExpenseApproval.status first <> "APPROVED"%string ->
      evalRule Sample.staff approvals (Sample.specificRole "MANAGER") = None).
Proof.
  intros approvals first.
  apply (C4_specific_role_first_step Sample.staff approvals
           [Sample.specificRole "MANAGER"] (Sample.specificRole "MANAGER")
           "MANAGER" first).
  - reflexivity.
  - simpl. left. reflexivity.
  - reflexivity.
  - reflexivity.
  - reflexivity.
  - discriminate.
  - reflexivity.
Defined.

(** C4 as stated fails: after Mary approves the second MANAGER step of
    expense 1 while Max's first MANAGER step is still pending, no step is
    rejected and a step labelled MANAGER is APPROVED, yet the verdict
    under the SPECIFIC rule for role MANAGER is null. *)
Lemma C4_counterexample :
  let db := Sample.twoManagers in
  let db' := snd (processApproval 1 2 "APPROVED" None db) in
  let steps := expenseApproval_findMany db' 1 in
  steps =
    [Sample.step 1 1 4 (Some "MANAGER"%string) "PENDING" 0;
     Sample.step 2 1 2 (Some "MANAGER"%string) "APPROVED" 1]
  /\ approvalRule_findMany db' 1 = [Sample.specificRole "MANAGER"]
  /\ find isRejected steps = None
  /\ (exists a, In a steps
                /\ ExpenseApproval.approverRole a = Some "MANAGER"%string
                /\ ExpenseApproval.status a = "APPROVED"%string)
  /\ exists v, evaluateApprovalRules db' 1 = inr v /\ Verdict.finalDecision v = None.
Proof.
  intros db db' steps.
  split; [reflexivity|]. split; [reflexivity|]. split; [reflexivity|]. split.
  - exists (Sample.step 2 1 2 (Some "MANAGER"%string) "APPROVED" 1).
    split; [right; left; reflexivity | split; reflexivity].
  - eexists. split; reflexivity.
Qed.

(** ** Percentage thresholds *)

(** *** Rounding to the nearest double *)

Lemma rne_le N D k : 0 < D -> N <= k * D -> Js.rne N D <= k.
Proof.
  intros HD H. unfold Js.rne.
  pose proof (Z.div_mod N D ltac:(lia)) as Hdm.
  pose proof (Z.mod_pos_bound N D HD) as Hr.
  assert (Hq : N / D <= k) by (apply Z.div_le_upper_bound; lia).
  destruct (Z.ltb_spec (2 * (N mod D)) D); [exact Hq|].
  assert (N / D < k) by nia.
  destruct (D <? 2 * (N mod D)); [lia|].
  destruct (Z.even (N / D)); lia.
Qed.

Lemma rne_exact D k : 0 < D -> Js.rne (k * D) D = k.
Proof.
  intros HD. unfold Js.rne.
  rewrite Z.div_mul by lia. rewrite Z.mod_mul by lia.
  destruct (Z.ltb_spec (2 * 0) D); [reflexivity|lia].
Qed.

Lemma rne_nonneg N D : 0 < D -> 0 <= N -> 0 <= Js.rne N D.
Proof.
  intros HD HN. unfold Js.rne.
  assert (0 <= N / D) by (apply Z.div_pos; lia).
  destruct (2 * (N mod D) <? D); [lia|].
  destruct (D <? 2 * (N mod D)); [lia|].
  destruct (Z.even (N / D)); lia.
Qed.

Lemma pow2_pos e : (0 < Js.pow2 e)%Q.
Proof.
  unfold Js.pow2. destruct (0 <=? e) eqn:E.
  - change 0%Q with (inject_Z 0). rewrite <- Zlt_Qlt.
    apply Z.pow_pos_nonneg; lia.
  - reflexivity.
Qed.

Lemma scaled_den_pos a b e : 0 < snd (Js.scaled a b e).
Proof.
  unfold Js.scaled. destruct (Z.leb_spec 0 e); cbn [fst snd]; [|lia].
  assert (0 < 2 ^ e) by (apply Z.pow_pos_nonneg; lia). nia.
Qed.

Lemma scaled_num_nonneg a b e : 0 <= a -> 0 <= fst (Js.scaled a b e).
Proof.
  intros Ha. unfold Js.scaled. destruct (Z.leb_spec 0 e); cbn [fst snd]; [lia|].
  assert (0 < 2 ^ (- e)) by (apply Z.pow_pos_nonneg; lia). nia.
Qed.

(** What [roundPos] returns is not negative. *)
Lemma roundPos_nonneg a b q : 0 <= a -> Js.roundPos a b = Some q -> (0 <= q)%Q.
Proof.
  intros Ha. unfold Js.roundPos.
  destruct (_ || _); [discriminate|]. intros [= <-].
  apply Qmult_le_0_compat.
  - change 0%Q with (inject_Z 0). rewrite <- Zle_Qle.
    apply rne_nonneg; [apply scaled_den_pos | now apply scaled_num_nonneg].
  - apply Qlt_le_weak, pow2_pos.
Qed.

(** Below 2^53 the unit in the last place is at most 1. *)
Lemma ulpExponent_le_0 a b k :
  0 < a -> a <= k * Zpos b -> k < 2 ^ 53 -> Js.ulpExponent a b <= 0.
Proof.
  intros Ha Hle Hk. unfold Js.ulpExponent.
  set (e0 := Z.log2 a - Z.log2 (Z.pos b) - 52).
  apply Z.max_lub; [|lia].
  destruct (Z.le_gt_cases e0 0) as [H0|H0].
  { destruct (_ <=? _); lia. }
  destruct (Z.eq_dec e0 1) as [H1|H1].
  - rewrite H1. unfold Js.scaled.
    change (0 <=? 1) with true. cbv iota. cbn [fst snd]. change (2 ^ 1) with 2.
    destruct (Z.leb_spec (2 ^ 52) (a / (Z.pos b * 2))) as [Hc|Hc]; [|lia].
    exfalso.
    assert (a / (Z.pos b * 2) < 2 ^ 52); [|lia].
    apply Z.div_lt_upper_bound; [lia|].
    change (2 ^ 53) with (2 ^ 52 * 2) in Hk. nia.
  - exfalso.
    pose proof (Z.log2_spec a Ha) as [Hla _].
    pose proof (Z.log2_spec (Z.pos b) ltac:(lia)) as [_ Hlb].
    pose proof (Z.log2_nonneg (Z.pos b)) as Hnn.
    assert (Hge : Z.log2 (Z.pos b) + 54 <= Z.log2 a) by (subst e0; lia).
    assert (Hpow : 2 ^ (Z.log2 (Z.pos b) + 54) <= 2 ^ Z.log2 a)
      by (apply Z.pow_le_mono_r; lia).
    rewrite Z.pow_add_r in Hpow by lia.
    rewrite Z.pow_succ_r in Hlb by lia.
    change (2 ^ 54) with (2 * 2 ^ 53) in Hpow.
    assert (0 < 2 ^ Z.log2 (Z.pos b)) by (apply Z.pow_pos_nonneg; lia).
    nia.
Qed.

Lemma ulpExponent_ge a b : -1074 <= Js.ulpExponent a b.
Proof. unfold Js.ulpExponent. apply Z.le_max_r. Qed.

(** [m * 2 ^ e <= k] from [m <= k * 2 ^ (- e)], for [e <= 0]. *)
Lemma scaled_back_le m e k :
  e <= 0 -> m <= k * 2 ^ (- e) -> (inject_Z m * Js.pow2 e <= inject_Z k)%Q.
Proof.
  intros He Hm. unfold Js.pow2.
  assert (Hp : 0 < 2 ^ (- e)) by (apply Z.pow_pos_nonneg; lia).
  destruct (Z.leb_spec 0 e).
  - assert (e = 0) by lia. subst e. change (2 ^ (- 0)) with 1 in Hm.
    unfold Qle, Qmult, inject_Z. cbn [Qnum Qden]. change (2 ^ 0) with 1. lia.
  - unfold Qle, Qmult, inject_Z. cbn [Qnum Qden].
    rewrite Pos.mul_1_l, Z2Pos.id by exact Hp. lia.
Qed.

(** The numerator of [a / b / 2 ^ e] over the denominator [b], for [e <= 0]. *)
Lemma scaled_nonpos a b e :
  e <= 0 ->
  fst (Js.scaled a b e) * Zpos b = a * 2 ^ (- e) * snd (Js.scaled a b e).
Proof.
  intros He. unfold Js.scaled. destruct (Z.leb_spec 0 e); cbn [fst snd].
  - assert (e = 0) by lia. subst e. change (2 ^ (- 0)) with 1. change (2 ^ 0) with 1. lia.
  - lia.
Qed.

(** Rounding never carries a value past an integer below 2^53: a
    rational that is at most [k] rounds to a double that is at most [k]. *)
Lemma round64_le_int x k :
  (x <= inject_Z k)%Q -> 0 <= k < 2 ^ 53 ->
  match Js.round64 x with
  | Js.Fin q => (q <= inject_Z k)%Q
  | Js.NInf => True
  | _ => False
  end.
Proof.
  intros Hx Hk. unfold Js.round64.
  destruct x as [a b]. simpl Qnum. simpl Qden.
  unfold Qle in Hx. simpl in Hx. rewrite Z.mul_1_r in Hx.
  destruct a as [|a|a].
  - change 0%Q with (inject_Z 0). rewrite <- Zle_Qle. lia.
  - assert (He : Js.ulpExponent (Z.pos a) b <= 0)
      by (apply (ulpExponent_le_0 _ _ k); lia).
    unfold Js.roundPos.
    set (e := Js.ulpExponent (Z.pos a) b) in *.
    destruct (Z.ltb_spec 971 e); [lia|].
    destruct (Z.eqb_spec e 971); [lia|]. simpl.
    apply scaled_back_le; [exact He|].
    pose proof (scaled_den_pos (Z.pos a) b e) as HD.
    pose proof (scaled_nonpos (Z.pos a) b e He) as Hs.
    apply rne_le; [exact HD|].
    assert (Hp : 0 < 2 ^ (- e)) by (apply Z.pow_pos_nonneg; lia).
    assert (fst (Js.scaled (Z.pos a) b e) * Z.pos b
            <= k * 2 ^ (- e) * snd (Js.scaled (Z.pos a) b e) * Z.pos b) by nia.
    nia.
  - destruct (Js.roundPos (Z.pos a) b) as [q|] eqn:E; [|exact I].
    apply roundPos_nonneg in E; [|lia].
    apply Qle_trans with 0%Q.
    + apply (Qopp_le_compat 0 q) in E. exact E.
    + change 0%Q with (inject_Z 0). rewrite <- Zle_Qle. lia.
Qed.

(** Half of an integer below 2^53 is a double: the product with 0.5 is exact. *)
Lemma round64_half z :
  0 <= z < 2 ^ 53 ->
  exists q, Js.round64 (inject_Z z * (1 # 2)) = Js.Fin q /\ (q == inject_Z z * (1 # 2))%Q.
Proof.
  intros Hz. unfold Js.round64. simpl Qnum. simpl Qden.
  rewrite Z.mul_1_r.
  destruct z as [|a|a]; [| |lia].
  - exists 0%Q. split; reflexivity.
  - set (b := 2%positive).
    assert (He : Js.ulpExponent (Z.pos a) b <= -1).
    { unfold Js.ulpExponent. apply Z.max_lub; [|lia].
      assert (Z.log2 (Z.pos a) < 53) by (apply Z.log2_lt_pow2; lia).
      change (Z.log2 (Z.pos b)) with 1.
      destruct (_ <=? _); lia. }
    pose proof (ulpExponent_ge (Z.pos a) b) as Hge.
    unfold Js.roundPos.
    set (e := Js.ulpExponent (Z.pos a) b) in *.
    destruct (Z.ltb_spec 971 e); [lia|].
    destruct (Z.eqb_spec e 971); [lia|]. simpl orb. cbv iota.
    eexists. split; [reflexivity|].
    unfold Js.scaled. destruct (Z.leb_spec 0 e); [lia|]. cbn [fst snd].
    assert (Hsplit : 2 ^ (- e) = 2 ^ (- e - 1) * 2).
    { replace (- e) with (Z.succ (- e - 1)) at 1 by lia.
      rewrite Z.pow_succ_r by lia. lia. }
    assert (Hp : 0 < 2 ^ (- e)) by (apply Z.pow_pos_nonneg; lia).
    replace (Z.pos a * 2 ^ (- e)) with (Z.pos a * 2 ^ (- e - 1) * Z.pos b)
      by (rewrite Hsplit; subst b; lia).
    rewrite rne_exact by lia.
    unfold Js.pow2. destruct (Z.leb_spec 0 e); [lia|].
    unfold Qeq, Qmult, inject_Z. cbn [Qnum Qden].
    rewrite !Pos.mul_1_l, Z2Pos.id by exact Hp.
    rewrite Hsplit. subst b. ring.
Qed.

(** *** The required count *)

Lemma lengthGe_mono k k' r :
  (k <= k')%nat -> Js.lengthGe k r = true -> Js.lengthGe k' r = true.
Proof.
  intros Hk. destruct r as [| | |q]; simpl; trivial.
  rewrite !Qle_bool_iff. intros H.
  apply Qle_trans with (inject_Z (Z.of_nat k)); [exact H|].
  rewrite <- Zle_Qle. lia.
Qed.

Lemma lengthGe_Fin_int k z :
  Js.lengthGe k (Js.Fin (inject_Z z)) = (z <=? Z.of_nat k).
Proof.
  simpl. destruct (Z.leb_spec z (Z.of_nat k)) as [H|H].
  - apply Qle_bool_iff. now rewrite <- Zle_Qle.
  - destruct (Qle_bool (inject_Z z) (inject_Z (Z.of_nat k))) eqn:E; trivial.
    apply Qle_bool_iff in E. rewrite <- Zle_Qle in E. lia.
Qed.

(** With a threshold of at most 1 the required count is at most the
    number of steps. *)
Lemma requiredApprovals_le_total n t :
  exactLength n -> (t <= 1)%Q ->
  Js.lengthGe n (requiredApprovals n (Js.Fin t)) = true.
Proof.
  intros Hn Ht. unfold requiredApprovals, Js.ofLength. simpl Js.mul.
  assert (Hx : (inject_Z (Z.of_nat n) * t <= inject_Z (Z.of_nat n))%Q).
  { rewrite <- (Qmult_1_r (inject_Z (Z.of_nat n))) at 2.
    rewrite (Qmult_comm _ t), (Qmult_comm _ 1).
    apply Qmult_le_compat_r; [exact Ht|].
    change 0%Q with (inject_Z 0). rewrite <- Zle_Qle. lia. }
  pose proof (round64_le_int _ (Z.of_nat n) Hx ltac:(unfold exactLength in Hn; lia)) as H.
  destruct (Js.round64 (inject_Z (Z.of_nat n) * t)) as [| | |q]; simpl; try tauto.
  apply Qle_bool_iff. rewrite <- Zle_Qle.
  rewrite <- (Qceiling_Z (Z.of_nat n)). now apply Qceiling_resp_le.
Qed.

(** With a threshold of at most 0 the required count is at most 0. *)
Lemma requiredApprovals_nonpositive n t k :
  (t <= 0)%Q -> Js.lengthGe k (requiredApprovals n (Js.Fin t)) = true.
Proof.
  intros Ht. unfold requiredApprovals, Js.ofLength. simpl Js.mul.
  assert (Hx : (inject_Z (Z.of_nat n) * t <= inject_Z 0)%Q).
  { rewrite Qmult_comm.
    rewrite <- (Qmult_0_l (inject_Z (Z.of_nat n))).
    apply Qmult_le_compat_r; [exact Ht|].
    change 0%Q with (inject_Z 0). rewrite <- Zle_Qle. lia. }
  pose proof (round64_le_int _ 0 Hx ltac:(lia)) as H.
  destruct (Js.round64 (inject_Z (Z.of_nat n) * t)) as [| | |q]; simpl; try tauto.
  apply Qle_bool_iff. rewrite <- Zle_Qle.
  apply Z.le_trans with 0; [|lia].
  rewrite <- (Qceiling_Z 0). now apply Qceiling_resp_le.
Qed.

(** With a threshold of 0.5 the required count is half the number of
    steps, rounded up. *)
Lemma requiredApprovals_half n :
  exactLength n ->
  requiredApprovals n (Js.Fin (1 # 2)) = Js.Fin (inject_Z ((Z.of_nat n + 1) / 2)).
Proof.
  intros Hn. unfold requiredApprovals, Js.ofLength. simpl Js.mul.
  destruct (round64_half (Z.of_nat n) ltac:(unfold exactLength in Hn; lia))
    as (q & -> & Hq).
  simpl. do 2 f_equal. rewrite (Qceiling_comp _ _ Hq).
  unfold Qceiling, Qfloor. simpl. rewrite Z.mul_1_r.
  generalize (Z.of_nat n). intros z.
  pose proof (Z.div_mod (- z) 2 ltac:(lia)).
  pose proof (Z.mod_pos_bound (- z) 2 ltac:(lia)).
  pose proof (Z.div_mod (z + 1) 2 ltac:(lia)).
  pose proof (Z.mod_pos_bound (z + 1) 2 ltac:(lia)).
  lia.
Qed.

(** Over no step at all the required count is 0. *)
Lemma requiredApprovals_zero t :
  requiredApprovals 0 (Js.Fin t) = Js.Fin (inject_Z 0).
Proof. destruct t as [a b]. reflexivity. Qed.

(** Whatever the config text, a HYBRID rule reads no threshold and no
    role from it: a property read on a string gives [undefined]. *)
Lemma hybrid_threshold rule :
  hybridPercentageThreshold rule = Js.VNum (Js.Fin (1 # 2)).
Proof.
  unfold hybridPercentageThreshold, ruleConfig.
  destruct (ApprovalRule.config rule) as [s|]; [|reflexivity].
  unfold Js.orElse at 2. simpl Js.truthy. destruct (negb (s =? "")%string); reflexivity.
Qed.

Lemma hybrid_role rule : hybridSpecificRole rule = Js.VUndefined.
Proof.
  unfold hybridSpecificRole, ruleConfig.
  destruct (ApprovalRule.config rule) as [s|]; [|reflexivity].
  unfold Js.orElse. simpl Js.truthy. destruct (negb (s =? "")%string); reflexivity.
Qed.

(** *** The percentage rule *)

Lemma no_rejected_no_pending approvals :
  Forall knownStatus approvals ->
  find isRejected approvals = None ->
  List.length (filter isPending approvals) = 0%nat ->
  List.length (filter isApproved approvals) = List.length approvals.
Proof.
  induction 1 as [|a l Ha Hl IH]; simpl; trivial.
  destruct (isRejected a) eqn:Er; [discriminate|].
  destruct (isPending a) eqn:Ep; [discriminate|].
  intros Hrej Hpen.
  assert (Hap : isApproved a = true).
  { unfold isRejected, isPending, isApproved in *.
    destruct Ha as [H|[H|H]]; rewrite H in *; try discriminate; reflexivity. }
  rewrite Hap. simpl. f_equal. auto.
Qed.

(** A PERCENTAGE rule matches exactly when the approved steps reach the
    required count. *)
Lemma evalRule_percentage us approvals rule :
  ApprovalRule.ruleType rule = "PERCENTAGE"%string ->
  (evalRule us approvals rule <> None
   <-> Js.lengthGe (List.length (filter isApproved approvals))
         (requiredApprovals (List.length approvals) (Js.Fin (thresholdNumber rule))) = true).
Proof.
  intros Hty. unfold evalRule. rewrite Hty.
  change (String.eqb "PERCENTAGE" "PERCENTAGE") with true. cbv iota.
  destruct (Js.lengthGe _ _); split; intros H; try discriminate; congruence.
Qed.

(** C5, as the code has it. With no rejected step, a PERCENTAGE rule of
    threshold [t] at most 1, fewer than 2^53 steps and no other matching
    rule: the required count is [Math.ceil] of the double nearest to
    [total * t]; the verdict is APPROVED when the number of approved
    steps reaches it and null otherwise. That count is the ceiling of
    [total * t] itself whenever this product is a double, and for
    [t = 0.5] it is half the number of steps, rounded up. *)
Theorem C5_percentage_rule us approvals rules rule t :
  Forall knownStatus approvals ->
  find isRejected approvals = None ->
  In rule rules ->
  ApprovalRule.ruleType rule = "PERCENTAGE"%string ->
  ApprovalRule.threshold rule = Some t ->
  (Js.toQ t <= 1)%Q ->
  exactLength (List.length approvals) ->
  (forall r, In r rules -> r <> rule -> evalRule us approvals r = None) ->
  let total := List.length approvals in
  let product := (inject_Z (Z.of_nat total) * Js.toQ t)%Q in
  let required := Js.Math_ceil (Js.round64 product) in
  let approved := List.length (filter isApproved approvals) in
  let v := evaluate us approvals rules in
  (Js.lengthGe approved required = true ->
   Verdict.finalDecision v = Some "APPROVED"%string)
  /\ (Js.lengthGe approved required = false -> Verdict.finalDecision v = None)
  /\ (forall p, Js.round64 product = Js.Fin p -> (p == product)%Q ->
                required = Js.Fin (inject_Z (Qceiling product)))
  /\ (t = half -> required = Js.Fin (inject_Z ((Z.of_nat total + 1) / 2))).
Proof.
  intros Hknown Hrej Hin Hty Hth Ht Hlen Hothers total product required approved v.
  assert (Hreq : requiredApprovals total (Js.Fin (thresholdNumber rule)) = required).
  { unfold thresholdNumber. rewrite Hth. reflexivity. }
  pose proof (evalRule_percentage us approvals rule Hty) as Hrule.
  fold total approved in Hrule. rewrite Hreq in Hrule.
  split; [|split; [|split]].
  - intros Hge. apply Hrule in Hge.
    destruct (evalRule us approvals rule) as [w|] eqn:E; [|congruence].
    subst v. eapply evaluate_rule_match; eassumption.
  - intros Hlt.
    assert (Hnone : evalRules us approvals rules = None).
    { apply evalRules_None. intros r Hr.
      destruct (evalRule us approvals r) as [w|] eqn:E; trivial.
      destruct (evalRule us approvals rule) as [w'|] eqn:E'.
      - assert (Js.lengthGe approved required = true) by (apply Hrule; congruence).
        congruence.
      - rewrite <- E. apply Hothers; trivial. intros ->. congruence. }
    subst v. rewrite (evaluate_default us approvals rules Hrej Hnone).
    destruct (Nat.eqb_spec (List.length (filter isPending approvals)) 0) as [Hp|Hp];
      [|reflexivity].
    destruct (Nat.ltb_spec 0 (List.length (filter isApproved approvals))) as [Ha|Ha];
      [|reflexivity].
    exfalso.
    pose proof (no_rejected_no_pending approvals Hknown Hrej Hp) as Hall.
    pose proof (requiredApprovals_le_total total (Js.toQ t) Hlen Ht) as Hle.
    change (requiredApprovals total (Js.Fin (Js.toQ t))) with required in Hle.
    subst approved. fold total in Hall. rewrite Hall in Hlt. congruence.
  - intros p Hp Hexact. subst required. rewrite Hp. simpl.
    now rewrite (Qceiling_comp _ _ Hexact).
  - intros ->. subst required product.
    exact (requiredApprovals_half total Hlen).
Qed.

(** The percentage scenario of the specification: threshold 0.5 over
    three steps, two of them approved. *)
Lemma C5_percentage_rule_witness :
  let approvals :=
    [Sample.step 1 1 2 None "APPROVED" 0;
     Sample.step 2 1 4 None "APPROVED" 1;
     Sample.step 3 1 1 None "PENDING" 2] in
  let product := (inject_Z 3 * Js.toQ half)%Q in
  let required := Js.Math_ceil (Js.round64 product) in
  let v := evaluate Sample.staff approvals [Sample.percentage half] in
  (Js.lengthGe 2 required = true -> Verdict.finalDecision v = Some "APPROVED"%string)
  /\ (Js.lengthGe 2 required = false -> Verdict.finalDecision v = None)
  /\ (forall p, Js.round64 product = Js.Fin p -> (p == product)%Q ->
                required = Js.Fin (inject_Z (Qceiling product)))
  /\ (half = half -> required = Js.Fin (inject_Z ((3 + 1) / 2))).
Proof.
  intros approvals.
  apply (C5_percentage_rule Sample.staff approvals [Sample.percentage half]
           (Sample.percentage half) half).
  - repeat (apply Forall_cons || apply Forall_nil); unfold knownStatus; simpl; auto.
  - reflexivity.
  - simpl. left. reflexivity.
  - reflexivity.
  - reflexivity.
  - unfold Qle; simpl; lia.
  - unfold exactLength. simpl. lia.
  - intros r [<-|[]] Hne. congruence.
Defined.

(** The sample thresholds are the doubles of their decimal literals. *)
Example sample_doubles :
  Sample.nearest (28 # 100) Sample.d028
  /\ Sample.nearest (2 # 10) Sample.d020
  /\ Sample.nearest (145 # 1000) Sample.d0145
  /\ Sample.nearest (3 # 2) Sample.d150
  /\ Sample.nearest (1 # 2) half.
Proof. repeat split; vm_compute; reflexivity. Qed.

(** C5 as stated fails, whichever way the threshold is read.
    Read as the decimal 0.28: over 25 steps the ceiling of 25 * 0.28 = 7
    is 7, yet with 7 steps approved and no rejection the verdict under
    the rule is null, since the double 25 * 0.28 lies above 7 and its
    ceiling is 8. Read as the value the REAL column holds for 0.2: over 5
    steps the ceiling of 5 times that value is 2, yet with a single step
    approved the verdict is APPROVED, since the product rounds to 1. *)
Lemma C5_counterexample :
  (let approvals := Sample.manySteps 25 7 in
   let rule := Sample.percentage Sample.d028 in
   List.length approvals = 25%nat
   /\ List.length (filter isApproved approvals) = 7%nat
   /\ find isRejected approvals = None
   /\ Js.toQ Sample.d028 = 1261007895663739 # 4503599627370496
   /\ Qceiling (inject_Z 25 * (28 # 100)) = 7
   /\ requiredApprovals 25 (Js.Fin (thresholdNumber rule)) = Js.Fin (inject_Z 8)
   /\ Verdict.finalDecision (evaluate Sample.staff approvals [rule]) = None)
  /\ (let approvals := Sample.manySteps 5 1 in
      let rule := Sample.percentage Sample.d020 in
      List.length approvals = 5%nat
      /\ List.length (filter isApproved approvals) = 1%nat
      /\ find isRejected approvals = None
      /\ Qceiling (inject_Z 5 * Js.toQ Sample.d020) = 2
      /\ requiredApprovals 5 (Js.Fin (thresholdNumber rule)) = Js.Fin (inject_Z 1)
      /\ Verdict.finalDecision (evaluate Sample.staff approvals [rule])
         = Some "APPROVED"%string).
Proof. vm_compute. repeat split; reflexivity. Qed.

(** The percentage scenario of the specification. *)
Example percentage_half_of_three_requires_two :
  requiredApprovals 3 (Js.ofDouble half) = Js.Fin (inject_Z 2).
Proof. reflexivity. Qed.

Example percentage_two_approved_one_pending :
  let v := evaluate Sample.staff
             [Sample.step 1 1 2 None "APPROVED" 0;
              Sample.step 2 1 4 None "APPROVED" 1;
              Sample.step 3 1 1 None "PENDING" 2]
             [Sample.percentage half] in
  Verdict.finalDecision v = Some "APPROVED"%string
  /\ Verdict.reason v = "Percentage rule satisfied (50% approval)"%string.
Proof. split; reflexivity. Qed.

Example percentage_one_approved_two_pending :
  let v := evaluate Sample.staff
             [Sample.step 1 1 2 None "APPROVED" 0;
              Sample.step 2 1 4 None "PENDING" 1;
              Sample.step 3 1 1 None "PENDING" 2]
             [Sample.percentage half] in
  Verdict.finalDecision v = None /\ Verdict.pendingApprovals v = Some 2%nat.
Proof. split; reflexivity. Qed.

(** The reason text rounds the double [threshold * 100]: for 0.145 that
    product lies below 14.5. *)
Example percentage_reason_rounds_the_double :
  let v := evaluate Sample.staff
             [Sample.step 1 1 2 None "APPROVED" 0]
             [Sample.percentage Sample.d0145] in
  Verdict.reason v = "Percentage rule satisfied (14% approval)"%string.
Proof. reflexivity. Qed.

(** ** Hybrid rules *)

(** A HYBRID rule matches exactly when the approved steps reach half of
    the steps, rounded to a double and up: its config text is not read. *)
Lemma evalRule_hybrid us approvals rule :
  ApprovalRule.ruleType rule = "HYBRID"%string ->
  (evalRule us approvals rule <> None
   <-> Js.lengthGe (List.length (filter isApproved approvals))
         (requiredApprovals (List.length approvals) (Js.Fin (1 # 2))) = true).
Proof.
  intros Hty. unfold evalRule. rewrite Hty.
  change (String.eqb "HYBRID" "PERCENTAGE") with false.
  change (String.eqb "HYBRID" "SPECIFIC") with false.
  change (String.eqb "HYBRID" "HYBRID") with true.
  cbv beta iota zeta. rewrite hybrid_threshold, hybrid_role.
  change (Js.truthy Js.VUndefined) with false.
  change (Js.toNumber (Js.VNum (Js.Fin (1 # 2)))) with (Js.Fin (1 # 2)).
  cbv iota. rewrite orb_false_r.
  destruct (Js.lengthGe _ _); split; intros H; try discriminate; congruence.
Qed.

(** C10. A HYBRID rule is evaluated with threshold 0.5 whenever its
    config gives no [percentageThreshold], and the config, a TEXT column
    that the code reads as a string, never gives one: for every HYBRID
    rule and fewer than 2^53 steps, with no rejected step, as soon as
    the approved steps number at least half of all steps, rounded up,
    the verdict is APPROVED; and that count is the rule's only test, no
    role being read from the config either. *)
Theorem C10_hybrid_default_threshold us approvals rules rule :
  ApprovalRule.ruleType rule = "HYBRID"%string ->
  exactLength (List.length approvals) ->
  let total := Z.of_nat (List.length approvals) in
  let approved := Z.of_nat (List.length (filter isApproved approvals)) in
  Js.toNumber (hybridPercentageThreshold rule) = Js.Fin (1 # 2)
  /\ hybridSpecificRole rule = Js.VUndefined
  /\ (find isRejected approvals = None -> In rule rules ->
      (total + 1) / 2 <= approved ->
      Verdict.finalDecision (evaluate us approvals rules) = Some "APPROVED"%string)
  /\ (evalRule us approvals rule <> None <-> (total + 1) / 2 <= approved).
Proof.
  intros Hty Hlen total approved.
  assert (Hrule : evalRule us approvals rule <> None <-> (total + 1) / 2 <= approved).
  { rewrite (evalRule_hybrid us approvals rule Hty).
    rewrite (requiredApprovals_half _ Hlen), lengthGe_Fin_int.
    fold total approved. apply Z.leb_le. }
  split; [now rewrite hybrid_threshold|]. split; [apply hybrid_role|].
  split; [|exact Hrule].
  intros Hrej Hin Hle. apply Hrule in Hle.
  destruct (evalRule us approvals rule) as [w|] eqn:E; [|congruence].
  eapply evaluate_rule_match; eassumption.
Qed.

Lemma C10_hybrid_default_threshold_witness :
  let approvals :=
    [Sample.step 1 1 2 None "APPROVED" 0;
     Sample.step 2 1 4 None "APPROVED" 1;
     Sample.step 3 1 1 None "PENDING" 2] in
  Js.toNumber (hybridPercentageThreshold Sample.hybridBare) = Js.Fin (1 # 2)
  /\ hybridSpecificRole Sample.hybridBare = Js.VUndefined
  /\ (find isRejected approvals = None -> In Sample.hybridBare [Sample.hybridBare] ->
      (3 + 1) / 2 <= 2 ->
      Verdict.finalDecision (evaluate Sample.staff approvals [Sample.hybridBare])
      = Some "APPROVED"%string)
  /\ (evalRule Sample.staff approvals Sample.hybridBare <> None <-> (3 + 1) / 2 <= 2).
Proof.
  intros approvals.
  apply (C10_hybrid_default_threshold Sample.staff approvals
           [Sample.hybridBare] Sample.hybridBare).
  - reflexivity.
  - unfold exactLength. simpl. lia.
Defined.

Example hybrid_bare_two_of_three :
  let v := evaluate Sample.staff
             [Sample.step 1 1 2 None "APPROVED" 0;
              Sample.step 2 1 4 None "APPROVED" 1;
              Sample.step 3 1 1 None "PENDING" 2]
             [Sample.hybridBare] in
  Verdict.finalDecision v = Some "APPROVED"%string
  /\ Verdict.reason v = "Hybrid rule satisfied"%string.
Proof. split; reflexivity. Qed.

(** ** The coordinator *)

Lemma setExpenseApprovals_same db :
  setExpenseApprovals (expenseApprovals db) (expenseApprovalSeq db) db = db.
Proof. destruct db; reflexivity. Qed.

Lemma pendingFor_true e u a :
  pendingFor e u a = true <->
  ExpenseApproval.expenseId a = e
  /\ ExpenseApproval.approverId a = Some u
  /\ ExpenseApproval.status a = "PENDING"%string.
Proof.
  unfold pendingFor, isPending, Js.eqNum.
  rewrite !andb_true_iff, Z.eqb_eq, String.eqb_eq.
  destruct (ExpenseApproval.approverId a) as [n|].
  - rewrite Z.eqb_eq. intuition congruence.
  - intuition congruence.
Qed.

Lemma decided_frame e u d c a :
  pendingFor e u a = false -> decided e u d c a = a.
Proof. unfold decided. now intros ->. Qed.

Lemma decided_expenseId e u d c a :
  ExpenseApproval.expenseId (decided e u d c a) = ExpenseApproval.expenseId a.
Proof. unfold decided. now destruct (pendingFor e u a). Qed.

Lemma map_decided_none e u d c l :
  (forall a, In a l -> pendingFor e u a = false) ->
  map (decided e u d c) l = l.
Proof.
  induction l as [|a r IH]; simpl; trivial.
  intros H. rewrite decided_frame by (apply H; now left).
  f_equal. apply IH. intros b Hb. apply H. now right.
Qed.

Lemma filter_nil_iff {A} (p : A -> bool) l :
  filter p l = [] <-> forall a, In a l -> p a = false.
Proof.
  induction l as [|a r IH]; simpl.
  - split; [intros _ ? [] | trivial].
  - destruct (p a) eqn:E.
    + split; [discriminate|]. intros H. specialize (H a (or_introl eq_refl)). congruence.
    + rewrite IH. split.
      * intros H b [<-|Hb]; auto.
      * intros H b Hb. apply H. now right.
Qed.

Lemma evaluate_decisions us approvals rules :
  (Verdict.finalDecision (evaluate us approvals rules) = Some "REJECTED"%string
   /\ exists a, find isRejected approvals = Some a)
  \/ (Verdict.finalDecision (evaluate us approvals rules) = Some "APPROVED"%string
      /\ find isRejected approvals = None)
  \/ (Verdict.finalDecision (evaluate us approvals rules) = None
      /\ find isRejected approvals = None).
Proof.
  unfold evaluate.
  destruct (find isRejected approvals) as [a|] eqn:Er.
  - left. split; [reflexivity | now exists a].
  - right. destruct (evalRules us approvals rules) as [w|] eqn:Ew.
    + left. split; trivial. eapply evalRules_approves; eassumption.
    + destruct (_ && _); [left | right]; split; reflexivity.
Qed.

Lemma processApproval_outcome e u d c db :
  Outcome e u d c db (processApproval e u d c db).
Proof.
  unfold processApproval, bind, expenseApproval_updateMany.
  fold (decided e u d c). fold (afterUpdateMany e u d c db).
  destruct (filter (pendingFor e u) (expenseApprovals db)) as [|a0 r] eqn:Ef.
  - simpl. unfold throw.
    assert (H : forall a, In a (expenseApprovals db) -> pendingFor e u a = false)
      by (now apply filter_nil_iff).
    unfold afterUpdateMany. rewrite map_decided_none by exact H.
    rewrite setExpenseApprovals_same. now constructor.
  - assert (Hex : exists a, In a (expenseApprovals db) /\ pendingFor e u a = true).
    { exists a0. apply filter_In. rewrite Ef. now left. }
    simpl. unfold awaitEvaluate, evaluateApprovalRules.
    change (expense_findUnique (afterUpdateMany e u d c db) e)
      with (expense_findUnique db e).
    destruct (expense_findUnique db e) as [expense|] eqn:Ee.
    + change (users (afterUpdateMany e u d c db)) with (users db).
      change (approvalRule_findMany (afterUpdateMany e u d c db) (Expense.companyId expense))
        with (approvalRule_findMany db (Expense.companyId expense)).
      set (v := evaluate _ _ _).
      destruct (evaluate_decisions (users db)
                  (expenseApproval_findMany (afterUpdateMany e u d c db) e)
                  (approvalRule_findMany db (Expense.companyId expense)))
        as [[Hv _]|[[Hv _]|[Hv _]]]; fold v in Hv; rewrite Hv; simpl.
      * unfold expense_update.
        change (expense_findUnique (afterUpdateMany e u d c db) e)
          with (expense_findUnique db e).
        rewrite Ee. simpl. unfold ret.
        fold (afterExpenseUpdate e "REJECTED" (afterUpdateMany e u d c db)).
        eapply Final; eauto.
      * unfold expense_update.
        change (expense_findUnique (afterUpdateMany e u d c db) e)
          with (expense_findUnique db e).
        rewrite Ee. simpl. unfold ret.
        fold (afterExpenseUpdate e "APPROVED" (afterUpdateMany e u d c db)).
        eapply Final; eauto.
      * unfold ret. eapply Open; eauto.
    + now constructor.
Qed.

(** With no matching row the [updateMany] counts 0 and rewrites nothing. *)
Lemma updateMany_no_match db e u d c :
  (forall a, In a (expenseApprovals db) -> pendingFor e u a = false) ->
  expenseApproval_updateMany e u d c db = (inr 0%nat, db).
Proof.
  intros H. unfold expenseApproval_updateMany.
  apply filter_nil_iff in H as Hf. rewrite Hf. simpl.
  fold (decided e u d c).
  rewrite map_decided_none by exact H.
  now rewrite setExpenseApprovals_same.
Qed.

Lemma not_pendingFor db e u :
  (forall a, In a (expenseApprovals db) ->
     ~ (ExpenseApproval.expenseId a = e
        /\ ExpenseApproval.approverId a = Some u
        /\ ExpenseApproval.status a = "PENDING"%string)) ->
  forall a, In a (expenseApprovals db) -> pendingFor e u a = false.
Proof.
  intros Hnone a Ha. destruct (pendingFor e u a) eqn:E; trivial.
  apply pendingFor_true in E. elim (Hnone a Ha E).
Qed.

Lemma processApproval_steps db expenseId approverId decision comment :
  expenseApprovals (snd (processApproval expenseId approverId decision comment db))
  = map (decided expenseId approverId decision comment) (expenseApprovals db).
Proof.
  pose proof (processApproval_outcome expenseId approverId decision comment db) as O.
  inversion O as [Hn Heq | Hn Heq | ex v d Hex He Hv Hd Heq | ex v Hex He Hv Hd Heq];
    simpl; trivial.
  symmetry. now apply map_decided_none.
Qed.

(** C7. When the acting approver has no PENDING step on the expense
    (already decided, no such step, or another approver's step),
    [processApproval] throws 'No pending approval found for this user'
    and the store it leaves is the store it found: no step and no
    expense status has changed. *)
Theorem C7_no_pending_step_is_an_error db expenseId approverId decision comment :
  (forall a, In a (expenseApprovals db) ->
     ~ (ExpenseApproval.expenseId a = expenseId
        /\ ExpenseApproval.approverId a = Some approverId
        /\ ExpenseApproval.status a = "PENDING"%string)) ->
  processApproval expenseId approverId decision comment db
  = (inl "No pending approval found for this user"%string, db).
Proof.
  intros Hnone.
  unfold processApproval, bind.
  rewrite updateMany_no_match by (apply not_pendingFor; exact Hnone).
  reflexivity.
Qed.

(** Mary has already rejected her step of expense 1; she submits again. *)
Lemma C7_no_pending_step_is_an_error_witness :
  processApproval 1 1 "APPROVED" (Some "again"%string) Sample.rejectedThird
  = (inl "No pending approval found for this user"%string, Sample.rejectedThird).
Proof.
  apply (C7_no_pending_step_is_an_error Sample.rejectedThird 1 1 "APPROVED"
           (Some "again"%string)).
  intros a Ha (_ & _ & Hst).
  simpl in Ha.
  destruct Ha as [<-|[<-|[<-|[]]]]; discriminate Hst.
Defined.

(** C8, as the code has it. A decision submission rewrites every PENDING
    step that names the approver on that expense, setting each to the
    decision, and leaves every other step as it was; when the call
    returns, at least one step was rewritten. *)
Theorem C8_every_pending_step_of_the_approver db expenseId approverId decision comment :
  let out := processApproval expenseId approverId decision comment db in
  expenseApprovals (snd out)
  = map (decided expenseId approverId decision comment) (expenseApprovals db)
  /\ (forall a, In a (expenseApprovals db) ->
        (pendingFor expenseId approverId a = true ->
         ExpenseApproval.status (decided expenseId approverId decision comment a) = decision)
        /\ (pendingFor expenseId approverId a = false ->
            decided expenseId approverId decision comment a = a))
  /\ (forall v, fst out = inr v ->
        (1 <= List.length (filter (pendingFor expenseId approverId) (expenseApprovals db)))%nat).
Proof.
  intros out. subst out.
  pose proof (processApproval_outcome expenseId approverId decision comment db) as O.
  split; [|split].
  - apply processApproval_steps.
  - intros a _. split.
    + unfold decided. now intros ->.
    + apply decided_frame.
  - intros v Hv.
    inversion O as [Hn Heq | Hn Heq | ex w d Hex He Hw Hd Heq | ex w Hex He Hw Hd Heq];
      rewrite <- Heq in Hv; simpl in Hv; try discriminate;
      destruct Hex as (a & Ha & Hp);
      assert (Hin : In a (filter (pendingFor expenseId approverId) (expenseApprovals db)))
        by (apply filter_In; auto);
      destruct (filter _ _); [destruct Hin | simpl; lia | destruct Hin | simpl; lia].
Qed.

Lemma C8_every_pending_step_of_the_approver_witness :
  let db := Sample.halfSuffices in
  let out := processApproval 1 4 "APPROVED" (Some "ok"%string) db in
  expenseApprovals (snd out)
  = map (decided 1 4 "APPROVED" (Some "ok"%string)) (expenseApprovals db)
  /\ (forall a, In a (expenseApprovals db) ->
        (pendingFor 1 4 a = true ->
         ExpenseApproval.status (decided 1 4 "APPROVED" (Some "ok"%string) a)
         = "APPROVED"%string)
        /\ (pendingFor 1 4 a = false ->
            decided 1 4 "APPROVED" (Some "ok"%string) a = a))
  /\ (forall v, fst out = inr v ->
        (1 <= List.length (filter (pendingFor 1 4) (expenseApprovals db)))%nat).
Proof.
  intros db.
  apply (C8_every_pending_step_of_the_approver db 1 4 "APPROVED" (Some "ok"%string)).
Defined.

(** C8 as stated fails: Mary holds both steps of expense 2; her single
    approval turns both steps APPROVED. *)
Lemma C8_counterexample :
  let db := Sample.sameApproverTwice in
  let db' := snd (processApproval 2 2 "APPROVED" (Some "ok"%string) db) in
  expenseApprovals db =
    [Sample.step 1 2 2 (Some "MANAGER"%string) "PENDING" 0;
     Sample.step 2 2 2 (Some "MANAGER"%string) "PENDING" 1]
  /\ expenseApprovals db' =
    [ExpenseApproval.mk 1 2 (Some 2) (Some "MANAGER"%string) "APPROVED" (Some "ok"%string) 0;
     ExpenseApproval.mk 2 2 (Some 2) (Some "MANAGER"%string) "APPROVED" (Some "ok"%string) 1].
Proof. split; reflexivity. Qed.

(** ** Expense status across decisions *)

Lemma find_expense_update e s e' l :
  find (fun x => Expense.id x =? e')
       (map (fun x => if Expense.id x =? e then Expense.withStatus s x else x) l)
  = if e' =? e
    then option_map (Expense.withStatus s) (find (fun x => Expense.id x =? e') l)
    else find (fun x => Expense.id x =? e') l.
Proof.
  induction l as [|x r IH]; simpl.
  - now destruct (e' =? e).
  - destruct (Expense.id x =? e) eqn:Ex; simpl.
    + apply Z.eqb_eq in Ex. rewrite Ex.
      destruct (e =? e') eqn:Ee.
      * apply Z.eqb_eq in Ee. subst e'. now rewrite Z.eqb_refl.
      * rewrite IH. rewrite Z.eqb_sym in Ee. now rewrite Ee.
    + destruct (Expense.id x =? e') eqn:Ex'.
      * apply Z.eqb_eq in Ex'. rewrite <- Ex', Ex. reflexivity.
      * exact IH.
Qed.

Lemma expenseStatus_afterUpdateMany e u d c db e' :
  expenseStatus (afterUpdateMany e u d c db) e' = expenseStatus db e'.
Proof. reflexivity. Qed.

Lemma expenseStatus_afterExpenseUpdate_same e s db x :
  expense_findUnique db e = Some x ->
  expenseStatus (afterExpenseUpdate e s db) e = Some s.
Proof.
  unfold expenseStatus, expense_findUnique, afterExpenseUpdate. simpl.
  intros H. rewrite find_expense_update, Z.eqb_refl, H. reflexivity.
Qed.

Lemma expenseStatus_afterExpenseUpdate_other e s db e' :
  e' <> e ->
  expenseStatus (afterExpenseUpdate e s db) e' = expenseStatus db e'.
Proof.
  unfold expenseStatus, expense_findUnique, afterExpenseUpdate. simpl.
  intros H. rewrite find_expense_update.
  apply Z.eqb_neq in H. now rewrite H.
Qed.

Lemma rejected_step_found db e a :
  In a (expenseApprovals db) ->
  ExpenseApproval.expenseId a = e ->
  ExpenseApproval.status a = "REJECTED"%string ->
  exists b, find isRejected (expenseApproval_findMany db e) = Some b.
Proof.
  intros Hin He Hst. apply find_is_Some with (x := a).
  - apply In_findMany; auto.
  - unfold isRejected. now rewrite Hst.
Qed.

Lemma no_rejected_step db e :
  find isRejected (expenseApproval_findMany db e) = None ->
  forall a, In a (expenseApprovals db) ->
            ExpenseApproval.expenseId a = e ->
            ExpenseApproval.status a <> "REJECTED"%string.
Proof.
  intros Hnone a Hin He Hst.
  destruct (rejected_step_found db e a Hin He Hst) as [b Hb]. congruence.
Qed.

Lemma rejected_step_kept e u d c a :
  ExpenseApproval.status a = "REJECTED"%string -> decided e u d c a = a.
Proof.
  intros Hst. apply decided_frame.
  destruct (pendingFor e u a) eqn:E; trivial.
  apply pendingFor_true in E. destruct E as (_ & _ & E). congruence.
Qed.

Lemma decided_not_rejected e u d c a :
  ExpenseApproval.status a <> "REJECTED"%string ->
  pendingFor e u a = true -> d <> "REJECTED"%string ->
  ExpenseApproval.status (decided e u d c a) <> "REJECTED"%string.
Proof. unfold decided. intros _ -> Hd. exact Hd. Qed.

(** What the first non-null verdict leaves behind. *)
Lemma verdict_settles e u d c db v db1 verdict :
  processApproval e u d c db = (inr v, db1) ->
  Verdict.finalDecision v = Some verdict ->
  (verdict = "REJECTED"%string /\ settledRejected db1 e)
  \/ (verdict = "APPROVED"%string /\ settledApproved db1 e).
Proof.
  intros Hrun Hv.
  pose proof (processApproval_outcome e u d c db) as O. rewrite Hrun in O.
  inversion O as [| | ex w vd Hex He Hw Hd [Hvw Hdb] | ex w Hex He Hw Hd [Hvw Hdb]];
    subst w; [|congruence].
  assert (vd = verdict) by congruence. subst vd.
  assert (Hstat : expenseStatus (afterExpenseUpdate e verdict (afterUpdateMany e u d c db)) e
                  = Some verdict).
  { eapply expenseStatus_afterExpenseUpdate_same. exact He. }
  destruct (evaluate_decisions (users db)
              (expenseApproval_findMany (afterUpdateMany e u d c db) e)
              (approvalRule_findMany db (Expense.companyId ex)))
    as [[Hf [a Ha]]|[[Hf Hno]|[Hf _]]]; rewrite <- Hw in Hf.
  - left. assert (verdict = "REJECTED"%string) by congruence. subst verdict.
    split; trivial. split; [exact Hstat|].
    apply find_some in Ha. destruct Ha as [Hin Hrej].
    apply In_findMany in Hin. destruct Hin as [Hin Hid].
    exists a. repeat split; trivial.
    unfold isRejected in Hrej. now apply String.eqb_eq.
  - right. assert (verdict = "APPROVED"%string) by congruence. subst verdict.
    split; trivial. split; [exact Hstat|].
    exact (no_rejected_step (afterUpdateMany e u d c db) e Hno).
  - congruence.
Qed.

Lemma settledRejected_kept e' u d c db e :
  settledRejected db e ->
  settledRejected (snd (processApproval e' u d c db)) e.
Proof.
  intros [Hst (a & Hin & Hid & Hrej)].
  assert (Hin' : In a (expenseApprovals (afterUpdateMany e' u d c db))).
  { simpl. rewrite <- (rejected_step_kept e' u d c a Hrej). now apply in_map. }
  pose proof (processApproval_outcome e' u d c db) as O.
  inversion O as [Hn Heq | Hn Heq | ex w vd Hex He Hw Hd Heq | ex w Hex He Hw Hd Heq];
    simpl.
  - split; [exact Hst | now exists a].
  - split; [exact Hst | now exists a].
  - split; [|now exists a].
    destruct (Z.eq_dec e e') as [<-|Hne].
    + destruct (evaluate_rejected (users db)
                  (expenseApproval_findMany (afterUpdateMany e u d c db) e)
                  (approvalRule_findMany db (Expense.companyId ex)) a) as [Hf _].
      * apply In_findMany; auto.
      * unfold isRejected. now rewrite Hrej.
      * rewrite <- Hw, Hd in Hf. injection Hf as ->.
        eapply expenseStatus_afterExpenseUpdate_same. exact He.
    + rewrite expenseStatus_afterExpenseUpdate_other by exact Hne. exact Hst.
  - split; [exact Hst | now exists a].
Qed.

Lemma settledApproved_kept e' u d c db e :
  settledApproved db e ->
  (e' = e -> d <> "REJECTED"%string) ->
  settledApproved (snd (processApproval e' u d c db)) e.
Proof.
  intros [Hst Hno] Hd.
  assert (Hno' : forall a, In a (expenseApprovals (afterUpdateMany e' u d c db)) ->
                           ExpenseApproval.expenseId a = e ->
                           ExpenseApproval.status a <> "REJECTED"%string).
  { simpl. intros b Hb Hid. apply in_map_iff in Hb. destruct Hb as (a & <- & Ha).
    rewrite decided_expenseId in Hid.
    destruct (pendingFor e' u a) eqn:Ep.
    - apply decided_not_rejected; auto. apply Hd.
      apply pendingFor_true in Ep. destruct Ep as [Ep _]. congruence.
    - rewrite decided_frame by exact Ep. auto. }
  pose proof (processApproval_outcome e' u d c db) as O.
  inversion O as [Hn Heq | Hn Heq | ex w vd Hex He Hw Hvd Heq | ex w Hex He Hw Hvd Heq];
    simpl.
  - split; assumption.
  - split; assumption.
  - split; [|exact Hno'].
    destruct (Z.eq_dec e e') as [<-|Hne].
    + destruct (evaluate_decisions (users db)
                  (expenseApproval_findMany (afterUpdateMany e u d c db) e)
                  (approvalRule_findMany db (Expense.companyId ex)))
        as [[Hf [a Ha]]|[[Hf _]|[Hf _]]]; rewrite <- Hw in Hf.
      * exfalso. apply find_some in Ha. destruct Ha as [Hin Hrej].
        apply In_findMany in Hin. destruct Hin as [Hin Hid].
        apply (Hno' a Hin Hid). unfold isRejected in Hrej. now apply String.eqb_eq.
      * assert (vd = "APPROVED"%string) by congruence. subst vd.
        eapply expenseStatus_afterExpenseUpdate_same. exact He.
      * congruence.
    + rewrite expenseStatus_afterExpenseUpdate_other by exact Hne. exact Hst.
  - split; assumption.
Qed.

Lemma settledRejected_runActions acts : forall db e,
  settledRejected db e -> settledRejected (runActions acts db) e.
Proof.
  induction acts as [|act rest IH]; simpl; intros db e H; trivial.
  apply IH. now apply settledRejected_kept.
Qed.

Lemma settledApproved_runActions acts : forall db e,
  settledApproved db e ->
  (forall act, In act acts -> Action.expenseId act = e ->
               Action.decision act <> "REJECTED"%string) ->
  settledApproved (runActions acts db) e.
Proof.
  induction acts as [|act rest IH]; simpl; intros db e H Hacts; trivial.
  apply IH.
  - apply settledApproved_kept; trivial. intros He. apply Hacts; auto.
  - intros act' Hin. apply Hacts. now right.
Qed.

(** C2, as the code has it. Once a non-null verdict has set the expense
    status: a REJECTED status survives every later [processApproval]
    call; an APPROVED status survives every later call whose decision on
    that expense is not REJECTED. (A later REJECTED decision on a step
    still pending re-runs the evaluator and overwrites APPROVED.) *)
Theorem C2_settled_status_kept db expenseId approverId decision comment v db1 verdict acts :
  processApproval expenseId approverId decision comment db = (inr v, db1) ->
  Verdict.finalDecision v = Some verdict ->
  verdict = "REJECTED"%string
  \/ (forall act, In act acts -> Action.expenseId act = expenseId ->
                  Action.decision act <> "REJECTED"%string) ->
  expenseStatus db1 expenseId = Some verdict
  /\ expenseStatus (runActions acts db1) expenseId = Some verdict.
Proof.
  intros Hrun Hv Hacts.
  destruct (verdict_settles _ _ _ _ _ _ _ _ Hrun Hv) as [[-> HR]|[-> HA]].
  - split; [apply HR|]. now apply settledRejected_runActions.
  - destruct Hacts as [Habs|Hacts]; [discriminate|].
    split; [apply HA|]. now apply settledApproved_runActions.
Qed.

(** Max approves his step of expense 1, which settles it as APPROVED
    under the 50% rule; Mary then approves her still pending step. *)
Lemma C2_settled_status_kept_witness :
  let db0 := Sample.halfSuffices in
  let db1 := snd (processApproval 1 4 "APPROVED" None db0) in
  expenseStatus db1 1 = Some "APPROVED"%string
  /\ expenseStatus (runActions [Action.mk 1 2 "APPROVED" None] db1) 1
     = Some "APPROVED"%string.
Proof.
  intros db0 db1.
  eapply (C2_settled_status_kept db0 1 4 "APPROVED" None _ db1 "APPROVED"
            [Action.mk 1 2 "APPROVED" None]).
  - reflexivity.
  - reflexivity.
  - right. intros act [<-|[]] _. discriminate.
Defined.

(** C2 as stated fails: expense 1 is settled as APPROVED by Max's
    approval while Mary's step is still PENDING; Mary's rejection of
    that step then changes the expense status to REJECTED. *)
Lemma C2_counterexample :
  let db0 := Sample.halfSuffices in
  let db1 := snd (processApproval 1 4 "APPROVED" None db0) in
  let db2 := snd (processApproval 1 2 "REJECTED" None db1) in
  (exists v, processApproval 1 4 "APPROVED" None db0 = (inr v, db1)
             /\ Verdict.finalDecision v = Some "APPROVED"%string)
  /\ expenseStatus db1 1 = Some "APPROVED"%string
  /\ map ExpenseApproval.status (stepsOf db1 1) = ["APPROVED"; "PENDING"]%string
  /\ (exists v, processApproval 1 2 "REJECTED" None db1 = (inr v, db2)
                /\ Verdict.finalDecision v = Some "REJECTED"%string)
  /\ expenseStatus db2 1 = Some "REJECTED"%string.
Proof.
  intros db0 db1 db2.
  split; [eexists; split; reflexivity|].
  split; [reflexivity|]. split; [reflexivity|].
  split; [eexists; split; reflexivity|reflexivity].
Qed.

(** ** Expenses without steps *)

Lemma evalRule_no_steps us rule :
  ApprovalRule.ruleType rule <> "PERCENTAGE"%string ->
  ApprovalRule.ruleType rule <> "HYBRID"%string ->
  evalRule us [] rule = None.
Proof.
  intros Hp Hh. unfold evalRule.
  apply String.eqb_neq in Hp. apply String.eqb_neq in Hh. rewrite Hp, Hh.
  simpl.
  destruct (String.eqb _ "SPECIFIC"); trivial.
  destruct (Js.truthyNum _).
  - now destruct (ApprovalRule.specificApproverId rule).
  - destruct (Js.truthyStr _); trivial.
    now destruct (ApprovalRule.specificRole rule).
Qed.

Lemma evalRule_no_steps_percentage us rule :
  ApprovalRule.ruleType rule = "PERCENTAGE"%string
  \/ ApprovalRule.ruleType rule = "HYBRID"%string ->
  evalRule us [] rule <> None.
Proof.
  intros [H|H].
  - apply (evalRule_percentage us [] rule H).
    change (List.length (@nil ExpenseApproval.t)) with 0%nat.
    now rewrite requiredApprovals_zero.
  - apply (evalRule_hybrid us [] rule H).
    change (List.length (@nil ExpenseApproval.t)) with 0%nat.
    now rewrite requiredApprovals_zero.
Qed.

Lemma findMany_no_steps db e :
  (forall a, In a (expenseApprovals db) -> ExpenseApproval.expenseId a <> e) ->
  expenseApproval_findMany db e = [].
Proof.
  intros H. unfold expenseApproval_findMany.
  replace (filter _ _) with (@nil ExpenseApproval.t); trivial.
  symmetry. apply filter_nil_iff. intros a Ha. apply Z.eqb_neq. auto.
Qed.

Lemma no_steps_kept e' u d c db e :
  (forall a, In a (expenseApprovals db) -> ExpenseApproval.expenseId a <> e) ->
  let db' := snd (processApproval e' u d c db) in
  (forall a, In a (expenseApprovals db') -> ExpenseApproval.expenseId a <> e)
  /\ expenseStatus db' e = expenseStatus db e.
Proof.
  intros Hno db'. subst db'.
  destruct (Z.eq_dec e' e) as [->|Hne].
  - unfold processApproval, bind. rewrite updateMany_no_match; [now split|].
    apply not_pendingFor. intros a Ha (Hid & _). exact (Hno a Ha Hid).
  - split.
    + rewrite processApproval_steps.
      intros b Hb. apply in_map_iff in Hb. destruct Hb as (a & <- & Ha).
      rewrite decided_expenseId. auto.
    + pose proof (processApproval_outcome e' u d c db) as O.
      inversion O; simpl; trivial.
      rewrite expenseStatus_afterExpenseUpdate_other by auto. reflexivity.
Qed.

(** C9, as the code has it. An expense with zero steps keeps its status:
    every [processApproval] call on it throws 'No pending approval found
    for this user' and changes nothing, so no series of decision
    submissions alters it; and on the empty step set the evaluator
    itself returns a null verdict when no active rule of the company is
    of type PERCENTAGE or HYBRID. *)
Theorem C9_zero_steps_stay_pending db expenseId :
  (forall a, In a (expenseApprovals db) -> ExpenseApproval.expenseId a <> expenseId) ->
  (forall approverId decision comment,
      processApproval expenseId approverId decision comment db
      = (inl "No pending approval found for this user"%string, db))
  /\ (forall acts, expenseStatus (runActions acts db) expenseId = expenseStatus db expenseId)
  /\ (forall expense,
        expense_findUnique db expenseId = Some expense ->
        (forall r, In r (approvalRule_findMany db (Expense.companyId expense)) ->
                   ApprovalRule.ruleType r <> "PERCENTAGE"%string
                   /\ ApprovalRule.ruleType r <> "HYBRID"%string) ->
        exists v, evaluateApprovalRules db expenseId = inr v
                  /\ Verdict.finalDecision v = None
                  /\ Verdict.pendingApprovals v = Some 0%nat).
Proof.
  intros Hno. split; [|split].
  - intros u d c. unfold processApproval, bind.
    rewrite updateMany_no_match; [reflexivity|].
    apply not_pendingFor. intros a Ha (Hid & _). exact (Hno a Ha Hid).
  - intros acts. revert db Hno.
    induction acts as [|act rest IH]; simpl; intros db Hno; trivial.
    destruct (no_steps_kept (Action.expenseId act) (Action.approverId act)
                (Action.decision act) (Action.comment act) db expenseId Hno)
      as [Hno' Hst].
    rewrite IH by exact Hno'. exact Hst.
  - intros expense He Hrules.
    unfold evaluateApprovalRules. rewrite He, findMany_no_steps by exact Hno.
    eexists. split; [reflexivity|].
    assert (Hnone : evalRules (users db) []
                      (approvalRule_findMany db (Expense.companyId expense)) = None).
    { apply evalRules_None. intros r Hr.
      destruct (Hrules r Hr). now apply evalRule_no_steps. }
    unfold evaluate. simpl. rewrite Hnone. simpl. split; reflexivity.
Qed.

(** Sol has no manager and the company no sequence definition: expense 3
    gets no step. The store here has no rule either. *)
Lemma C9_zero_steps_stay_pending_witness :
  let db := mkDB Sample.staff Sample.claims [] 0 [] [] in
  (forall approverId decision comment,
      processApproval 3 approverId decision comment db
      = (inl "No pending approval found for this user"%string, db))
  /\ (forall acts, expenseStatus (runActions acts db) 3 = expenseStatus db 3)
  /\ (forall expense,
        expense_findUnique db 3 = Some expense ->
        (forall r, In r (approvalRule_findMany db (Expense.companyId expense)) ->
                   ApprovalRule.ruleType r <> "PERCENTAGE"%string
                   /\ ApprovalRule.ruleType r <> "HYBRID"%string) ->
        exists v, evaluateApprovalRules db 3 = inr v
                  /\ Verdict.finalDecision v = None
                  /\ Verdict.pendingApprovals v = Some 0%nat).
Proof.
  intros db.
  apply (C9_zero_steps_stay_pending db 3).
  intros a [].
Defined.

(** C9 as stated fails: expense 3 has zero steps, yet with a 50%
    percentage rule active the evaluator returns APPROVED on its empty
    step set, since the required count is [ceil (0 * 0.5) = 0]. *)
Lemma C9_counterexample :
  let out := createApprovalSequence 3 1 6 Sample.noSequence in
  fst out = inr []
  /\ stepsOf (snd out) 3 = []
  /\ exists v, evaluateApprovalRules (snd out) 3 = inr v
               /\ Verdict.finalDecision v = Some "APPROVED"%string
               /\ Verdict.reason v = "Percentage rule satisfied (50% approval)"%string.
Proof.
  intros out. split; [reflexivity|]. split; [reflexivity|].
  eexists. repeat split; reflexivity.
Qed.

(** ** The sequence builder *)

(** For a character of the stored text the [if / else if] chain takes no
    branch: [step.type] is [undefined]. *)
Lemma resolveStep_char c u s db :
  resolveStep c u (Js.VStr s) db = (inr (Js.VNull, None), db).
Proof. reflexivity. Qed.

(** The loop over the characters of a stored definition creates no row. *)
Lemma forSteps_chars e c u s : forall i acc db,
  forSteps e c u (Js.chars s) i acc db = (inr acc, db).
Proof.
  induction s as [|ch r IH]; intros i acc db; simpl; [reflexivity|].
  unfold bind. rewrite resolveStep_char. simpl. apply IH.
Qed.

(** With a stored definition, whatever its text, the builder returns no
    row and writes nothing. *)
Lemma createApprovalSequence_text e c u db sq :
  approvalSequence_findFirst db c = Some sq ->
  ApprovalSequence.sequence sq <> ""%string ->
  createApprovalSequence e c u db = (inr [], db).
Proof.
  intros Hsq Hne. unfold createApprovalSequence. rewrite Hsq. cbv zeta.
  apply String.eqb_neq in Hne. rewrite Hne. simpl negb. cbv iota.
  apply forSteps_chars.
Qed.

(** Without a stored definition, or with an empty one, the builder is
    its fallback branch. *)
Lemma createApprovalSequence_fallback e c u db :
  approvalSequence_findFirst db c = None
  \/ (exists sq, approvalSequence_findFirst db c = Some sq
                 /\ ApprovalSequence.sequence sq = ""%string) ->
  createApprovalSequence e c u db
  = match user_findUnique db u with
    | Some user =>
        match user_manager db user with
        | Some manager =>
            match expenseApproval_create e (User.id manager) (Some "MANAGER"%string) 0 db with
            | (inr approval, db') => (inr [approval], db')
            | (inl msg, db') => (inl msg, db')
            end
        | None => (inr [], db)
        end
    | None => (inr [], db)
    end.
Proof.
  intros H. unfold createApprovalSequence. cbv zeta.
  assert (Hc : match approvalSequence_findFirst db c with
               | Some s => ApprovalSequence.sequence s
               | None => EmptyString
               end = EmptyString).
  { destruct H as [->|(sq & -> & ->)]; reflexivity. }
  rewrite Hc. simpl negb. cbv iota.
  destruct (user_findUnique db u) as [user|]; [|reflexivity].
  destruct (user_manager db user) as [manager|]; reflexivity.
Qed.

Lemma definition_or_fallback db c :
  (exists sq, approvalSequence_findFirst db c = Some sq
              /\ ApprovalSequence.sequence sq <> ""%string)
  \/ approvalSequence_findFirst db c = None
  \/ (exists sq, approvalSequence_findFirst db c = Some sq
                 /\ ApprovalSequence.sequence sq = ""%string).
Proof.
  destruct (approvalSequence_findFirst db c) as [sq|]; [|auto].
  destruct (string_dec (ApprovalSequence.sequence sq) "") as [E|E].
  - right. right. now exists sq.
  - left. now exists sq.
Qed.

(** An insertion either appends the row it returns or is refused and
    writes nothing. *)
Lemma expenseApproval_create_cases e n role i db :
  (exists row,
     expenseApproval_create e n role i db
     = (inr row, setExpenseApprovals (expenseApprovals db ++ [row])
                   (expenseApprovalSeq db + 1) db)
     /\ row = ExpenseApproval.mk (expenseApprovalSeq db + 1) e (Some n) role
                "PENDING" None i
     /\ expense_findUnique db e <> None /\ user_findUnique db n <> None)
  \/ (expenseApproval_create e n role i db
      = (inl "P2003: Foreign key constraint failed"%string, db)
      /\ (expense_findUnique db e = None \/ user_findUnique db n = None)).
Proof.
  unfold expenseApproval_create.
  destruct (expense_findUnique db e) as [x|]; [|right; auto].
  destruct (user_findUnique db n) as [y|]; [|right; auto].
  left. eexists. split; [reflexivity|]. split; [reflexivity|]. split; discriminate.
Qed.



(** The seeded definition [manager, role MANAGER]: Eve reports to Max
    and the company has an active MANAGER, yet submitting her expense
    creates no step. *)
Example seeded_definition_creates_no_step :
  createApprovalSequence 1 1 3 Sample.seeded = (inr [], Sample.seeded).
Proof. reflexivity. Qed.

(** The loop body on step objects, which no stored definition yields:
    were the text parsed into [manager, user 2, role admin], the loop
    would give each resolved step its index in the definition. For Sol,
    who has no manager, the first step is skipped and the rows created
    carry the orders 1 and 2. *)
Example loop_on_parsed_steps :
  let db := mkDB Sample.staff Sample.claims [] 0 [] [] in
  let steps := [Sample.stepObject "manager" Js.VNull;
                Sample.stepObject "user" (idValue 2);
                Sample.stepObject "role" (Js.VStr "admin")] in
  fst (forSteps 3 1 6 steps 0 [] db)
  = inr [Sample.step 1 3 2 None "PENDING" 1;
         Sample.step 2 3 1 (Some "ADMIN"%string) "PENDING" 2].
Proof. reflexivity. Qed.

(** The end-to-end scenario of the specification, on the fallback path.
    No sequence definition; Emil's manager is Mary. Submission yields one
    step, order 0, approver Mary, role label MANAGER; Mary approves with
    comment "ok" and the expense becomes APPROVED, all approvals being
    completed. *)
Example end_to_end_manager_fallback :
  let db0 := mkDB Sample.staff Sample.claims [] 0 [] [] in
  let built := createApprovalSequence 2 1 5 db0 in
  let done := approveRoute Sample.managersOnly 1 2 (Some "APPROVED"%string)
                (Some "ok"%string) (snd built) in
  fst built = inr [Sample.step 1 2 2 (Some "MANAGER"%string) "PENDING" 0]
  /\ Response.code (fst done) = 200
  /\ option_map Verdict.finalDecision (Response.result (fst done))
     = Some (Some "APPROVED"%string)
  /\ option_map Verdict.reason (Response.result (fst done))
     = Some "All approvals completed"%string
  /\ expenseStatus (snd done) 2 = Some "APPROVED"%string.
Proof. repeat split; reflexivity. Qed.

(** * Further properties of the evaluator *)

Lemma find_isRejected_status approvals a :
  find isRejected approvals = Some a ->
  In a approvals /\ ExpenseApproval.status a = "REJECTED"%string.
Proof.
  intros H. apply find_some in H. destruct H as [Hin Hrej].
  split; trivial. now apply String.eqb_eq.
Qed.

(** X1. The verdict of [evaluateApprovalRules] is REJECTED exactly when
    some step of the expense is REJECTED: no rule, of whatever kind or
    threshold, ever produces a rejection. *)
Theorem rejected_verdict_iff_rejected_step db expenseId expense :
  expense_findUnique db expenseId = Some expense ->
  (exists v, evaluateApprovalRules db expenseId = inr v
             /\ Verdict.finalDecision v = Some "REJECTED"%string)
  <-> (exists a, In a (expenseApprovals db)
                 /\ ExpenseApproval.expenseId a = expenseId
                 /\ ExpenseApproval.status a = "REJECTED"%string).
Proof.
  intros He. rewrite (evaluateApprovalRules_found db expenseId expense He). split.
  - intros (v & [= <-] & Hv).
    destruct (evaluate_decisions (users db) (expenseApproval_findMany db expenseId)
                (approvalRule_findMany db (Expense.companyId expense)))
      as [[_ [a Ha]]|[[Hf _]|[Hf _]]]; try congruence.
    apply find_isRejected_status in Ha. destruct Ha as [Hin Hst].
    apply In_findMany in Hin. destruct Hin as [Hin Hid]. now exists a.
  - intros (a & Hin & Hid & Hst).
    eexists. split; [reflexivity|].
    apply evaluate_rejected with (a := a).
    + apply In_findMany; auto.
    + unfold isRejected. now rewrite Hst.
Qed.

Lemma rejected_verdict_iff_rejected_step_witness :
  (exists v, evaluateApprovalRules Sample.rejectedThird 1 = inr v
             /\ Verdict.finalDecision v = Some "REJECTED"%string)
  <-> (exists a, In a (expenseApprovals Sample.rejectedThird)
                 /\ ExpenseApproval.expenseId a = 1
                 /\ ExpenseApproval.status a = "REJECTED"%string).
Proof.
  apply (rejected_verdict_iff_rejected_step Sample.rejectedThird 1
           (Expense.mk 1 3 1 "PENDING")).
  reflexivity.
Defined.

Lemma all_approved_counts approvals :
  Forall (fun a => ExpenseApproval.status a = "APPROVED"%string) approvals ->
  find isRejected approvals = None
  /\ filter isPending approvals = []
  /\ filter isApproved approvals = approvals.
Proof.
  induction 1 as [|a l Ha Hl (IH1 & IH2 & IH3)]; simpl; [auto|].
  unfold isRejected, isPending, isApproved in *. rewrite Ha. simpl.
  rewrite IH3. auto.
Qed.

(** X2. When every step of a non-empty step set is APPROVED the verdict
    is APPROVED under every rule configuration: rules can bring the
    approval forward but cannot withhold it. *)
Theorem unanimous_steps_are_approved us approvals rules :
  approvals <> [] ->
  Forall (fun a => ExpenseApproval.status a = "APPROVED"%string) approvals ->
  Verdict.finalDecision (evaluate us approvals rules) = Some "APPROVED"%string.
Proof.
  intros Hne Hall.
  destruct (all_approved_counts approvals Hall) as (Hrej & Hpen & Happ).
  destruct (evalRules us approvals rules) as [w|] eqn:Ew.
  - unfold evaluate. rewrite Hrej, Ew. eapply evalRules_approves; eassumption.
  - rewrite (evaluate_default us approvals rules Hrej Ew), Hpen, Happ.
    destruct approvals; [congruence | reflexivity].
Qed.

Lemma unanimous_steps_are_approved_witness :
  Verdict.finalDecision
    (evaluate Sample.staff
       [Sample.step 1 1 2 None "APPROVED" 0; Sample.step 2 1 4 None "APPROVED" 1]
       [Sample.percentage Sample.d150; Sample.specificRole "ADMIN"])
  = Some "APPROVED"%string.
Proof.
  apply unanimous_steps_are_approved.
  - discriminate.
  - repeat (apply Forall_cons || apply Forall_nil); reflexivity.
Defined.

(** X3. A null verdict means work is left or was never there: with the
    three step statuses of the data model, a null verdict implies that
    the step set is empty or that some step is still PENDING, and the
    result then reports how many are. *)
Theorem null_verdict_has_pending_step us approvals rules :
  Forall knownStatus approvals ->
  Verdict.finalDecision (evaluate us approvals rules) = None ->
  (approvals = []
   \/ exists a, In a approvals /\ ExpenseApproval.status a = "PENDING"%string)
  /\ Verdict.pendingApprovals (evaluate us approvals rules)
     = Some (List.length (filter isPending approvals))
  /\ Verdict.totalApprovals (evaluate us approvals rules)
     = Some (List.length approvals).
Proof.
  intros Hknown Hnull.
  destruct (evaluate_decisions us approvals rules)
    as [[Hf _]|[[Hf _]|[_ Hrej]]]; try congruence.
  assert (Hrules : evalRules us approvals rules = None).
  { destruct (evalRules us approvals rules) as [w|] eqn:Ew; trivial.
    unfold evaluate in Hnull. rewrite Hrej, Ew in Hnull.
    rewrite (evalRules_approves _ _ _ _ Ew) in Hnull. discriminate. }
  rewrite (evaluate_default us approvals rules Hrej Hrules) in *.
  destruct (filter isPending approvals) as [|p ps] eqn:Ep.
  - pose proof (no_rejected_no_pending approvals Hknown Hrej) as Hall.
    rewrite Ep in Hall. specialize (Hall eq_refl).
    simpl in Hnull |- *.
    destruct (filter isApproved approvals) as [|x xs]; simpl in *.
    + split; [|split; reflexivity]. left.
      destruct approvals; [reflexivity | discriminate].
    + discriminate.
  - simpl. split; [|split; reflexivity]. right. exists p.
    assert (Hin : In p (filter isPending approvals)) by (rewrite Ep; now left).
    apply filter_In in Hin. destruct Hin as [Hin Hp].
    split; trivial. now apply String.eqb_eq.
Qed.

Lemma null_verdict_has_pending_step_witness :
  let approvals :=
    [Sample.step 1 1 2 None "APPROVED" 0; Sample.step 2 1 4 None "PENDING" 1] in
  (approvals = []
   \/ exists a, In a approvals /\ ExpenseApproval.status a = "PENDING"%string)
  /\ Verdict.pendingApprovals (evaluate Sample.staff approvals [])
     = Some (List.length (filter isPending approvals))
  /\ Verdict.totalApprovals (evaluate Sample.staff approvals [])
     = Some (List.length approvals).
Proof.
  intros approvals.
  apply (null_verdict_has_pending_step Sample.staff approvals []).
  - repeat (apply Forall_cons || apply Forall_nil); unfold knownStatus; simpl; auto.
  - reflexivity.
Defined.

Lemma evalRule_unknown_type us approvals rule :
  knownRuleType rule = false -> evalRule us approvals rule = None.
Proof.
  unfold knownRuleType, evalRule. intros H.
  apply orb_false_iff in H. destruct H as [H Hh].
  apply orb_false_iff in H. destruct H as [Hp Hs].
  now rewrite Hp, Hs, Hh.
Qed.

(** X4. A rule whose [ruleType] is none of PERCENTAGE, SPECIFIC and
    HYBRID is skipped without error: the whole result of the evaluator
    is the one obtained with such rules removed. *)
Theorem unknown_rule_types_are_skipped us approvals rules :
  evaluate us approvals rules = evaluate us approvals (filter knownRuleType rules).
Proof.
  assert (H : evalRules us approvals rules
              = evalRules us approvals (filter knownRuleType rules)).
  { induction rules as [|r rs IH]; simpl; trivial.
    destruct (knownRuleType r) eqn:Ek; simpl.
    - now rewrite IH.
    - now rewrite (evalRule_unknown_type us approvals r Ek). }
  unfold evaluate. now rewrite H.
Qed.

(** X5. Which rule is stored first does not change the decision: two
    rule lists with the same members give the same [finalDecision] (a
    matching rule can only say APPROVED), and when no rule of the first
    list matches, the whole result is the same. *)
Theorem rule_order_does_not_change_the_decision us approvals rules rules' :
  (forall r, In r rules <-> In r rules') ->
  Verdict.finalDecision (evaluate us approvals rules)
  = Verdict.finalDecision (evaluate us approvals rules')
  /\ (evalRules us approvals rules = None ->
      evaluate us approvals rules = evaluate us approvals rules').
Proof.
  intros Hsame.
  assert (Hnone : evalRules us approvals rules = None
                  <-> evalRules us approvals rules' = None).
  { rewrite !evalRules_None. split; intros H r Hr; apply H; now apply Hsame. }
  split.
  - unfold evaluate. destruct (find isRejected approvals); trivial.
    destruct (evalRules us approvals rules) as [w|] eqn:Ew;
      destruct (evalRules us approvals rules') as [w'|] eqn:Ew'.
    + rewrite (evalRules_approves _ _ _ _ Ew), (evalRules_approves _ _ _ _ Ew').
      reflexivity.
    + destruct Hnone as [_ H]. specialize (H eq_refl). discriminate.
    + destruct Hnone as [H _]. specialize (H eq_refl). discriminate.
    + reflexivity.
  - intros H. apply Hnone in H as H'. unfold evaluate. now rewrite H, H'.
Qed.

Lemma rule_order_does_not_change_the_decision_witness :
  let approvals :=
    [Sample.step 1 1 2 (Some "MANAGER"%string) "APPROVED" 0;
     Sample.step 2 1 4 None "PENDING" 1] in
  let rules := [Sample.percentage half; Sample.specificRole "MANAGER"] in
  let rules' := [Sample.specificRole "MANAGER"; Sample.percentage half] in
  Verdict.finalDecision (evaluate Sample.staff approvals rules)
  = Verdict.finalDecision (evaluate Sample.staff approvals rules')
  /\ (evalRules Sample.staff approvals rules = None ->
      evaluate Sample.staff approvals rules = evaluate Sample.staff approvals rules').
Proof.
  intros approvals rules rules'.
  apply (rule_order_does_not_change_the_decision Sample.staff approvals rules rules').
  intros r. simpl. tauto.
Defined.

(** X6. A PERCENTAGE rule whose threshold is null (it coerces to 0) or
    not positive is satisfied by any count of approvals, zero included:
    with no rejected step the verdict is APPROVED even while every step
    is still pending. *)
Theorem percentage_without_threshold_approves us approvals rules rule :
  ApprovalRule.ruleType rule = "PERCENTAGE"%string ->
  (thresholdNumber rule <= 0)%Q ->
  find isRejected approvals = None ->
  In rule rules ->
  Verdict.finalDecision (evaluate us approvals rules) = Some "APPROVED"%string.
Proof.
  intros Hty Ht Hrej Hin.
  destruct (evalRule us approvals rule) as [w|] eqn:E.
  - eapply evaluate_rule_match; eassumption.
  - exfalso. revert E. apply (evalRule_percentage us approvals rule Hty).
    now apply requiredApprovals_nonpositive.
Qed.

Lemma percentage_without_threshold_approves_witness :
  Verdict.finalDecision
    (evaluate Sample.staff
       [Sample.step 1 1 2 None "PENDING" 0; Sample.step 2 1 4 None "PENDING" 1]
       [Sample2.percentageNull])
  = Some "APPROVED"%string.
Proof.
  apply (percentage_without_threshold_approves Sample.staff _ _ Sample2.percentageNull).
  - reflexivity.
  - unfold Qle; simpl; lia.
  - reflexivity.
  - left. reflexivity.
Defined.

(** X7. On an expense without steps the evaluator approves as soon as
    the company has an active PERCENTAGE or HYBRID rule, whatever its
    threshold: the required count is [ceil (0 * t) = 0]. *)
Theorem no_steps_with_percentage_rule_approves db expenseId expense rule :
  expense_findUnique db expenseId = Some expense ->
  (forall a, In a (expenseApprovals db) -> ExpenseApproval.expenseId a <> expenseId) ->
  In rule (approvalRule_findMany db (Expense.companyId expense)) ->
  ApprovalRule.ruleType rule = "PERCENTAGE"%string
  \/ ApprovalRule.ruleType rule = "HYBRID"%string ->
  exists v, evaluateApprovalRules db expenseId = inr v
            /\ Verdict.finalDecision v = Some "APPROVED"%string.
Proof.
  intros He Hno Hin Hty.
  rewrite (evaluateApprovalRules_found db expenseId expense He).
  rewrite (findMany_no_steps db expenseId Hno).
  eexists. split; [reflexivity|].
  destruct (evalRule (users db) [] rule) as [w|] eqn:E.
  - eapply evaluate_rule_match; [reflexivity | exact Hin | exact E].
  - elim (evalRule_no_steps_percentage (users db) rule Hty E).
Qed.

Lemma no_steps_with_percentage_rule_approves_witness :
  exists v, evaluateApprovalRules Sample.noSequence 3 = inr v
            /\ Verdict.finalDecision v = Some "APPROVED"%string.
Proof.
  apply (no_steps_with_percentage_rule_approves Sample.noSequence 3
           (Expense.mk 3 6 1 "PENDING") (Sample.percentage half)).
  - reflexivity.
  - intros a [].
  - left. reflexivity.
  - left. reflexivity.
Defined.

(** X8. The config of a HYBRID rule is never read. The column is TEXT
    and the code takes [config.percentageThreshold] and
    [config.specificRole] of that string, which are [undefined]: a
    HYBRID rule evaluates as the same rule with any other config text or
    with none, so a threshold or a role written into the config has no
    effect, and the rule is never satisfied by a role. *)
Theorem hybrid_config_is_never_read us approvals rule config :
  ApprovalRule.ruleType rule = "HYBRID"%string ->
  evalRule us approvals (withConfig config rule) = evalRule us approvals rule
  /\ Js.toNumber (hybridPercentageThreshold rule) = Js.Fin (Js.toQ half)
  /\ Js.truthy (hybridSpecificRole rule) = false.
Proof.
  intros Hty. split; [|split].
  - unfold evalRule. simpl ApprovalRule.ruleType. rewrite Hty.
    change (String.eqb "HYBRID" "PERCENTAGE") with false.
    change (String.eqb "HYBRID" "SPECIFIC") with false.
    change (String.eqb "HYBRID" "HYBRID") with true.
    cbv beta iota zeta.
    now rewrite !hybrid_threshold, !hybrid_role.
  - now rewrite hybrid_threshold.
  - now rewrite hybrid_role.
Qed.

Lemma hybrid_config_is_never_read_witness :
  evalRule Sample.staff (Sample.manySteps 3 1) (withConfig None Sample2.hybridAdmin)
  = evalRule Sample.staff (Sample.manySteps 3 1) Sample2.hybridAdmin
  /\ Js.toNumber (hybridPercentageThreshold Sample2.hybridAdmin) = Js.Fin (Js.toQ half)
  /\ Js.truthy (hybridSpecificRole Sample2.hybridAdmin) = false.
Proof.
  apply (hybrid_config_is_never_read Sample.staff (Sample.manySteps 3 1)
           Sample2.hybridAdmin None).
  reflexivity.
Defined.

(** A rule whose config text asks for 75% or the ADMIN step: the ADMIN
    step alone, approved, does not satisfy it, and two approvals of
    three do. *)
Example hybrid_config_role_has_no_effect :
  let v := evaluate Sample.staff
             [Sample.step 1 1 1 (Some "ADMIN"%string) "APPROVED" 0;
              Sample.step 2 1 2 None "PENDING" 1;
              Sample.step 3 1 4 None "PENDING" 2]
             [Sample2.hybridAdmin] in
  Verdict.finalDecision v = None.
Proof. reflexivity. Qed.

Example hybrid_config_threshold_has_no_effect :
  let v := evaluate Sample.staff
             [Sample.step 1 1 2 None "APPROVED" 0;
              Sample.step 2 1 4 None "APPROVED" 1;
              Sample.step 3 1 1 None "PENDING" 2]
             [Sample2.hybridAdmin] in
  Verdict.finalDecision v = Some "APPROVED"%string.
Proof. reflexivity. Qed.

(** * Further properties of the coordinator *)

Lemma find_map_invariant {A} (p : A -> bool) (g : A -> A) l :
  (forall a, p (g a) = p a) ->
  find p (map g l) = option_map g (find p l).
Proof.
  intros H. induction l as [|a r IH]; simpl; trivial.
  rewrite H. now destruct (p a).
Qed.

Lemma filter_map_invariant {A} (p : A -> bool) (g : A -> A) l :
  (forall a, p (g a) = p a) ->
  filter p (map g l) = map g (filter p l).
Proof.
  intros H. induction l as [|a r IH]; simpl; trivial.
  rewrite H. destruct (p a); simpl; now rewrite IH.
Qed.

Lemma decided_columns e u d c a : sameStep a (decided e u d c a).
Proof. unfold decided, sameStep. destruct (pendingFor e u a); simpl; auto. Qed.

Lemma insertByOrder_map (g : ExpenseApproval.t -> ExpenseApproval.t) a l :
  (forall b, ExpenseApproval.order (g b) = ExpenseApproval.order b) ->
  insertByOrder (g a) (map g l) = map g (insertByOrder a l).
Proof.
  intros H. induction l as [|b r IH]; simpl; trivial.
  rewrite !H. destruct (ExpenseApproval.order a <=? ExpenseApproval.order b); simpl; trivial.
  now rewrite IH.
Qed.

Lemma sortByOrder_map (g : ExpenseApproval.t -> ExpenseApproval.t) l :
  (forall b, ExpenseApproval.order (g b) = ExpenseApproval.order b) ->
  sortByOrder (map g l) = map g (sortByOrder l).
Proof.
  intros H. induction l as [|a r IH]; simpl; trivial.
  now rewrite IH, insertByOrder_map.
Qed.

(** The rows the evaluator reads after the [updateMany] are the rows it
    would have read before, decided. *)
Lemma findMany_afterUpdateMany e u d c db e' :
  expenseApproval_findMany (afterUpdateMany e u d c db) e'
  = map (decided e u d c) (expenseApproval_findMany db e').
Proof.
  unfold expenseApproval_findMany. simpl.
  rewrite filter_map_invariant by (intros a; now rewrite decided_expenseId).
  apply sortByOrder_map. intros b. symmetry. apply decided_columns.
Qed.

Section Approving.

Variables (e u : Z) (c : option string).
Let g := decided e u "APPROVED" c.

Lemma approving_keeps_decided a :
  isPending a = false -> g a = a.
Proof.
  intros H. apply decided_frame. unfold pendingFor. rewrite H. apply andb_false_r.
Qed.

Lemma approving_isRejected a : isRejected (g a) = isRejected a.
Proof.
  unfold g, decided. destruct (pendingFor e u a) eqn:E; trivial.
  apply pendingFor_true in E. destruct E as (_ & _ & E).
  unfold isRejected. simpl. now rewrite E.
Qed.

Lemma approving_isApproved a : isApproved a = true -> isApproved (g a) = true.
Proof.
  intros H. rewrite approving_keeps_decided; trivial.
  unfold isApproved, isPending in *. apply String.eqb_eq in H. now rewrite H.
Qed.

Lemma approving_count l :
  (List.length (filter isApproved l) <= List.length (filter isApproved (map g l)))%nat.
Proof.
  induction l as [|a r IH]; simpl; [lia|].
  destruct (isApproved a) eqn:Ea.
  - rewrite (approving_isApproved a Ea). simpl. lia.
  - destruct (isApproved (g a)); simpl; lia.
Qed.

Lemma approving_find_approver uid l :
  find (fun a => Js.eqNum (ExpenseApproval.approverId a) uid) (map g l)
  = option_map g (find (fun a => Js.eqNum (ExpenseApproval.approverId a) uid) l).
Proof.
  apply find_map_invariant. intros a.
  destruct (decided_columns e u "APPROVED" c a) as (_ & _ & H & _).
  fold g in H. now rewrite <- H.
Qed.

Lemma approving_find_role role l :
  find (fun a => Js.eqStr (ExpenseApproval.approverRole a) role) (map g l)
  = option_map g (find (fun a => Js.eqStr (ExpenseApproval.approverRole a) role) l).
Proof.
  apply find_map_invariant. intros a.
  destruct (decided_columns e u "APPROVED" c a) as (_ & _ & _ & H & _).
  fold g in H. now rewrite <- H.
Qed.

Lemma approving_evalRule us l rule w :
  evalRule us l rule = Some w -> evalRule us (map g l) rule <> None.
Proof.
  pose proof (approving_count l) as Hcount.
  destruct (String.eqb (ApprovalRule.ruleType rule) "PERCENTAGE") eqn:Ep.
  { apply String.eqb_eq in Ep. intros H.
    apply (evalRule_percentage us (map g l) rule Ep). rewrite length_map.
    eapply lengthGe_mono; [exact Hcount|].
    apply (evalRule_percentage us l rule Ep). congruence. }
  destruct (String.eqb (ApprovalRule.ruleType rule) "HYBRID") eqn:Eh.
  { apply String.eqb_eq in Eh. intros H.
    apply (evalRule_hybrid us (map g l) rule Eh). rewrite length_map.
    eapply lengthGe_mono; [exact Hcount|].
    apply (evalRule_hybrid us l rule Eh). congruence. }
  unfold evalRule. rewrite Ep, Eh.
  destruct (String.eqb (ApprovalRule.ruleType rule) "SPECIFIC"); [|discriminate].
  destruct (Js.truthyNum (ApprovalRule.specificApproverId rule)).
  - destruct (ApprovalRule.specificApproverId rule) as [uid|]; [|discriminate].
    rewrite approving_find_approver.
    destruct (find _ l) as [a|]; [|discriminate]. simpl.
    destruct (isApproved a) eqn:Ea; [|discriminate].
    rewrite (approving_isApproved a Ea). discriminate.
  - destruct (Js.truthyStr (ApprovalRule.specificRole rule)); [|discriminate].
    destruct (ApprovalRule.specificRole rule) as [role|]; [|discriminate].
    rewrite approving_find_role.
    destruct (find _ l) as [a|]; [|discriminate]. simpl.
    destruct (isApproved a) eqn:Ea; [|discriminate].
    rewrite (approving_isApproved a Ea). discriminate.
Qed.

Lemma approving_nothing_pending l :
  filter isPending l = [] -> map g l = l.
Proof.
  intros H. rewrite filter_nil_iff in H.
  induction l as [|a r IH]; simpl; trivial.
  rewrite approving_keeps_decided by (apply H; now left).
  f_equal. apply IH. intros b Hb. apply H. now right.
Qed.

(** Approving pending steps never takes an APPROVED verdict back. *)
Lemma approving_keeps_verdict us l rules :
  Verdict.finalDecision (evaluate us l rules) = Some "APPROVED"%string ->
  Verdict.finalDecision (evaluate us (map g l) rules) = Some "APPROVED"%string.
Proof.
  intros Hv.
  destruct (evaluate_decisions us l rules) as [[Hf _]|[[_ Hrej]|[Hf _]]]; try congruence.
  assert (Hrej' : find isRejected (map g l) = None).
  { rewrite find_map_invariant by apply approving_isRejected. now rewrite Hrej. }
  destruct (evalRules us l rules) as [w|] eqn:Ew.
  - assert (Hsome : exists r w', In r rules /\ evalRule us l r = Some w').
    { clear - Ew. induction rules as [|r rs IH]; simpl in Ew; [discriminate|].
      destruct (evalRule us l r) as [w'|] eqn:E.
      - exists r, w'. split; [now left | exact E].
      - destruct (IH Ew) as (r' & w' & Hin & H). exists r', w'. split; [now right | exact H]. }
    destruct Hsome as (r & w' & Hin & Hr).
    pose proof (approving_evalRule us l r w' Hr) as Hr'.
    destruct (evalRule us (map g l) r) as [w''|] eqn:E; [|congruence].
    eapply evaluate_rule_match; eassumption.
  - rewrite (evaluate_default us l rules Hrej Ew) in Hv.
    destruct (filter isPending l) as [|p ps] eqn:Ep; [|discriminate].
    now rewrite (approving_nothing_pending l Ep), (evaluate_default us l rules Hrej Ew), Ep.
Qed.

End Approving.

(** X9. An approval never takes an approval back: if the evaluator
    already returns APPROVED for an expense, every further APPROVED
    decision by an approver with a PENDING step on it returns the verdict
    APPROVED again (never null) and leaves the expense APPROVED. *)
Theorem further_approvals_stay_approved db expenseId expense v approverId comment a :
  expense_findUnique db expenseId = Some expense ->
  evaluateApprovalRules db expenseId = inr v ->
  Verdict.finalDecision v = Some "APPROVED"%string ->
  In a (expenseApprovals db) ->
  pendingFor expenseId approverId a = true ->
  exists v' db',
    processApproval expenseId approverId "APPROVED" comment db = (inr v', db')
    /\ Verdict.finalDecision v' = Some "APPROVED"%string
    /\ expenseStatus db' expenseId = Some "APPROVED"%string.
Proof.
  intros He Hev Hv Hin Hp.
  rewrite (evaluateApprovalRules_found db expenseId expense He) in Hev.
  injection Hev as <-.
  pose proof (approving_keeps_verdict expenseId approverId comment (users db) _ _ Hv) as Hv'.
  rewrite <- findMany_afterUpdateMany in Hv'.
  pose proof (processApproval_outcome expenseId approverId "APPROVED" comment db) as O.
  inversion O as [Hn Heq | Hn Heq | ex w vd Hex Hex' Hw Hd Heq | ex w Hex Hex' Hw Hd Heq].
  - rewrite (Hn a Hin) in Hp. discriminate.
  - congruence.
  - assert (ex = expense) by congruence. subst ex.
    rewrite <- Hw in Hv'. assert (vd = "APPROVED"%string) by congruence. subst vd.
    exists w. eexists. split; [reflexivity|]. split; [exact Hv'|].
    eapply expenseStatus_afterExpenseUpdate_same. exact He.
  - assert (ex = expense) by congruence. subst ex.
    rewrite <- Hw in Hv'. congruence.
Qed.

Lemma further_approvals_stay_approved_witness :
  exists v' db',
    processApproval 1 2 "APPROVED" (Some "fine"%string) Sample2.approvedByMax = (inr v', db')
    /\ Verdict.finalDecision v' = Some "APPROVED"%string
    /\ expenseStatus db' 1 = Some "APPROVED"%string.
Proof.
  eapply (further_approvals_stay_approved Sample2.approvedByMax 1
            (Expense.mk 1 3 1 "APPROVED") _ 2 (Some "fine"%string)
            (Sample.step 2 1 2 None "PENDING" 1)).
  - reflexivity.
  - reflexivity.
  - reflexivity.
  - right. left. reflexivity.
  - reflexivity.
Defined.

(** X10. [processApproval] returns a verdict exactly when the approver
    has a PENDING step on the expense and the expense row exists; in
    every other case it throws. *)
Theorem processApproval_returns_iff db expenseId approverId decision comment :
  (exists v, fst (processApproval expenseId approverId decision comment db) = inr v)
  <-> (exists a, In a (expenseApprovals db)
                 /\ ExpenseApproval.expenseId a = expenseId
                 /\ ExpenseApproval.approverId a = Some approverId
                 /\ ExpenseApproval.status a = "PENDING"%string)
      /\ expense_findUnique db expenseId <> None.
Proof.
  pose proof (processApproval_outcome expenseId approverId decision comment db) as O.
  split.
  - intros [v Hv].
    inversion O as [Hn Heq | Hn Heq | ex w vd Hex He Hw Hd Heq | ex w Hex He Hw Hd Heq];
      rewrite <- Heq in Hv; simpl in Hv; try discriminate;
      (split; [|congruence]);
      destruct Hex as (a & Hin & Hp); apply pendingFor_true in Hp; exists a; tauto.
  - intros [(a & Hin & Hp) He].
    assert (Hp' : pendingFor expenseId approverId a = true) by (now apply pendingFor_true).
    inversion O as [Hn Heq | Hn Heq | ex w vd Hex He' Hw Hd Heq | ex w Hex He' Hw Hd Heq].
    + rewrite (Hn a Hin) in Hp'. discriminate.
    + contradiction.
    + now exists w.
    + now exists w.
Qed.

(** X11. The status column follows the verdict returned: after a call
    that returns, the expense has the verdict's [finalDecision] as its
    status when that is non-null and its former status when it is null;
    after a call that throws, every expense row is as before. *)
Theorem status_follows_verdict db expenseId approverId decision comment :
  let out := processApproval expenseId approverId decision comment db in
  (forall v, fst out = inr v ->
     expenseStatus (snd out) expenseId
     = match Verdict.finalDecision v with
       | Some d => Some d
       | None => expenseStatus db expenseId
       end)
  /\ (forall msg, fst out = inl msg -> expenses (snd out) = expenses db).
Proof.
  intros out. subst out.
  pose proof (processApproval_outcome expenseId approverId decision comment db) as O.
  inversion O as [Hn Heq | Hn Heq | ex w vd Hex He Hw Hd Heq | ex w Hex He Hw Hd Heq];
    simpl; split; try discriminate; try reflexivity.
  - intros v [= <-]. rewrite Hd.
    eapply expenseStatus_afterExpenseUpdate_same. exact He.
  - intros v [= <-]. now rewrite Hd.
Qed.

(** The verdict after a rejection by an approver who had a pending step. *)
Lemma rejecting_verdict db e u c rules a :
  In a (expenseApprovals db) ->
  pendingFor e u a = true ->
  Verdict.finalDecision
    (evaluate (users db)
       (expenseApproval_findMany (afterUpdateMany e u "REJECTED" c db) e) rules)
  = Some "REJECTED"%string.
Proof.
  intros Hin Hp.
  apply evaluate_rejected with (a := decided e u "REJECTED" c a).
  - apply In_findMany. split.
    + simpl. now apply in_map.
    + rewrite decided_expenseId. now apply pendingFor_true in Hp.
  - unfold decided. rewrite Hp. reflexivity.
Qed.

(** X12. A rejection always settles: whenever the approver has a PENDING
    step on an existing expense, [processApproval] with decision
    REJECTED returns the verdict REJECTED and leaves the expense status
    REJECTED, whatever the rules and the other steps. *)
Theorem rejection_always_settles db expenseId approverId comment expense a :
  expense_findUnique db expenseId = Some expense ->
  In a (expenseApprovals db) ->
  pendingFor expenseId approverId a = true ->
  exists v db',
    processApproval expenseId approverId "REJECTED" comment db = (inr v, db')
    /\ Verdict.finalDecision v = Some "REJECTED"%string
    /\ expenseStatus db' expenseId = Some "REJECTED"%string.
Proof.
  intros He Hin Hp.
  pose proof (processApproval_outcome expenseId approverId "REJECTED" comment db) as O.
  inversion O as [Hn Heq | Hn Heq | ex w vd Hex He' Hw Hd Heq | ex w Hex He' Hw Hd Heq].
  - rewrite (Hn a Hin) in Hp. discriminate.
  - congruence.
  - pose proof (rejecting_verdict db expenseId approverId comment
                  (approvalRule_findMany db (Expense.companyId ex)) a Hin Hp) as Hf.
    rewrite <- Hw in Hf. assert (vd = "REJECTED"%string) by congruence. subst vd.
    exists w. eexists. split; [reflexivity|]. split; [exact Hf|].
    eapply expenseStatus_afterExpenseUpdate_same. exact He'.
  - pose proof (rejecting_verdict db expenseId approverId comment
                  (approvalRule_findMany db (Expense.companyId ex)) a Hin Hp) as Hf.
    rewrite <- Hw in Hf. congruence.
Qed.

Lemma rejection_always_settles_witness :
  exists v db',
    processApproval 1 2 "REJECTED" (Some "no"%string) Sample2.approvedByMax = (inr v, db')
    /\ Verdict.finalDecision v = Some "REJECTED"%string
    /\ expenseStatus db' 1 = Some "REJECTED"%string.
Proof.
  apply (rejection_always_settles Sample2.approvedByMax 1 2 (Some "no"%string)
           (Expense.mk 1 3 1 "APPROVED") (Sample.step 2 1 2 None "PENDING" 1)).
  - reflexivity.
  - right. left. reflexivity.
  - reflexivity.
Defined.

Lemma decided_not_pending e u d c a :
  d <> "PENDING"%string -> pendingFor e u (decided e u d c a) = false.
Proof.
  intros Hd. unfold decided. destruct (pendingFor e u a) eqn:E; trivial.
  unfold pendingFor, isPending. simpl.
  apply String.eqb_neq in Hd. rewrite Hd. apply andb_false_r.
Qed.

(** X13. A step leaves PENDING at most once per approver: after any
    call of [processApproval] with a decision other than PENDING, a
    second call by the same approver on the same expense throws 'No
    pending approval found for this user' and changes nothing. *)
Theorem second_submission_is_refused db expenseId approverId decision comment
    decision' comment' :
  decision <> "PENDING"%string ->
  let db1 := snd (processApproval expenseId approverId decision comment db) in
  processApproval expenseId approverId decision' comment' db1
  = (inl "No pending approval found for this user"%string, db1).
Proof.
  intros Hd db1.
  unfold processApproval at 1, bind. rewrite updateMany_no_match; [reflexivity|].
  subst db1. rewrite processApproval_steps.
  intros b Hb. apply in_map_iff in Hb. destruct Hb as (a & <- & _).
  now apply decided_not_pending.
Qed.

Lemma second_submission_is_refused_witness :
  let db1 := snd (processApproval 1 4 "APPROVED" None Sample2.twoPending) in
  processApproval 1 4 "REJECTED" (Some "changed my mind"%string) db1
  = (inl "No pending approval found for this user"%string, db1).
Proof.
  apply (second_submission_is_refused Sample2.twoPending 1 4 "APPROVED" None
           "REJECTED" (Some "changed my mind"%string)).
  discriminate.
Defined.

Lemma steps_kept_one e u d c db :
  Forall2 (fun a b => sameStep a b
                      /\ (ExpenseApproval.status a <> "PENDING"%string -> b = a))
    (expenseApprovals db) (expenseApprovals (snd (processApproval e u d c db))).
Proof.
  rewrite processApproval_steps.
  induction (expenseApprovals db) as [|a r IH]; simpl; constructor; trivial.
  split; [apply decided_columns|].
  intros Hst. apply decided_frame.
  destruct (pendingFor e u a) eqn:E; trivial.
  apply pendingFor_true in E. tauto.
Qed.

Lemma sameStep_trans a b c' : sameStep a b -> sameStep b c' -> sameStep a c'.
Proof. unfold sameStep. intuition congruence. Qed.

Lemma steps_kept_trans l1 : forall l2 l3,
  Forall2 (fun a b => sameStep a b
                      /\ (ExpenseApproval.status a <> "PENDING"%string -> b = a)) l1 l2 ->
  Forall2 (fun a b => sameStep a b
                      /\ (ExpenseApproval.status a <> "PENDING"%string -> b = a)) l2 l3 ->
  Forall2 (fun a b => sameStep a b
                      /\ (ExpenseApproval.status a <> "PENDING"%string -> b = a)) l1 l3.
Proof.
  induction l1 as [|a r IH]; intros l2 l3 H12 H23.
  - inversion H12; subst. inversion H23; subst. constructor.
  - inversion H12 as [|? b ? r2 [Hab Hab'] Hr]; subst.
    inversion H23 as [|? c' ? r3 [Hbc Hbc'] Hr']; subst.
    constructor; [|eapply IH; eassumption].
    split; [eapply sameStep_trans; eassumption|].
    intros Hst. specialize (Hab' Hst). subst b. auto.
Qed.

(** X14. Decisions never add, drop or reorder step rows and never
    rewrite a recorded decision: after any series of [processApproval]
    calls the step table has the same rows in the same positions, each
    with its id, expense, approver, role label and order unchanged, and
    every row that was not PENDING is exactly as it was. *)
Theorem recorded_decisions_are_kept acts : forall db,
  Forall2 (fun a b => sameStep a b
                      /\ (ExpenseApproval.status a <> "PENDING"%string -> b = a))
    (expenseApprovals db) (expenseApprovals (runActions acts db)).
Proof.
  induction acts as [|act rest IH]; intros db; simpl.
  - induction (expenseApprovals db); constructor; trivial.
    split; [unfold sameStep|]; auto 6.
  - eapply steps_kept_trans; [apply steps_kept_one | apply IH].
Qed.

Lemma setup_kept_one e u d c db :
  sameSetup db (snd (processApproval e u d c db))
  /\ expenseApprovalSeq (snd (processApproval e u d c db)) = expenseApprovalSeq db
  /\ forall e', e' <> e ->
       expenseStatus (snd (processApproval e u d c db)) e' = expenseStatus db e'.
Proof.
  pose proof (processApproval_outcome e u d c db) as O.
  inversion O; simpl; unfold sameSetup; simpl; repeat split; trivial;
    intros e' Hne; now rewrite expenseStatus_afterExpenseUpdate_other.
Qed.

(** X15. Decisions stay within their expense: a series of
    [processApproval] calls changes neither the users, the rules, the
    sequence definitions nor the step id counter, and it leaves the
    status of every expense that none of the calls names as it was. *)
Theorem decisions_stay_within_their_expense acts : forall db,
  sameSetup db (runActions acts db)
  /\ expenseApprovalSeq (runActions acts db) = expenseApprovalSeq db
  /\ forall e', (forall act, In act acts -> Action.expenseId act <> e') ->
       expenseStatus (runActions acts db) e' = expenseStatus db e'.
Proof.
  induction acts as [|act rest IH]; intros db; simpl.
  - unfold sameSetup. auto.
  - destruct (setup_kept_one (Action.expenseId act) (Action.approverId act)
                (Action.decision act) (Action.comment act) db)
      as ((Hu & Hr & Hs) & Hseq & Hst).
    destruct (IH (snd (processApproval (Action.expenseId act) (Action.approverId act)
                         (Action.decision act) (Action.comment act) db)))
      as ((Hu' & Hr' & Hs') & Hseq' & Hst').
    unfold sameSetup. repeat split; try congruence.
    intros e' Hacts. rewrite Hst'.
    + apply Hst. intros Heq. apply (Hacts act); auto.
    + intros act' Hin. apply Hacts. now right.
Qed.


(** * The decision routes *)








(** A step that names an employee: under a guard that lets only
    managers and administrators through, Eve cannot decide it, and the
    step stays PENDING. *)
Example employee_is_refused_by_the_guard :
  let db := mkDB Sample.staff Sample.claims
              [Sample.step 1 2 3 None "PENDING" 0] 1 [] [] in
  approveRoute Sample.managersOnly 1 3 (Some "APPROVED"%string) None db
  = (Response.mk 403 None (Some "Insufficient permissions"%string) None, db).
Proof. reflexivity. Qed.

(** * The cancellation route *)

Lemma expense_findFirstPending_spec db e u x :
  expense_findFirstPending db e u = Some x ->
  In x (expenses db) /\ Expense.id x = e /\ Expense.userId x = u
  /\ Expense.status x = "PENDING"%string.
Proof.
  unfold expense_findFirstPending. intros H.
  apply find_some in H. destruct H as [Hin Hp].
  apply andb_true_iff in Hp. destruct Hp as [Hp Hst].
  apply andb_true_iff in Hp. destruct Hp as [Hid Hu].
  rewrite Z.eqb_eq in Hid, Hu. apply String.eqb_eq in Hst. auto.
Qed.

Lemma expense_found_by_id db e x :
  In x (expenses db) -> Expense.id x = e -> expense_findUnique db e <> None.
Proof.
  intros Hin Hid H. unfold expense_findUnique in H.
  apply (find_none _ _ H) in Hin. simpl in Hin.
  rewrite Hid, Z.eqb_refl in Hin. discriminate.
Qed.

Lemma find_unique_id db e x :
  NoDup (map Expense.id (expenses db)) ->
  In x (expenses db) -> Expense.id x = e ->
  expense_findUnique db e = Some x.
Proof.
  unfold expense_findUnique. induction (expenses db) as [|y r IH]; simpl.
  - intros _ [].
  - intros Hnd [->|Hin] Hid.
    + now rewrite Hid, Z.eqb_refl.
    + inversion Hnd as [|? ? Hy Hr]; subst.
      destruct (Z.eqb_spec (Expense.id y) (Expense.id x)) as [E|E].
      * exfalso. apply Hy. rewrite E. now apply in_map.
      * now apply IH.
Qed.

(** X18. [DELETE /api/expenses/:id] cancels only the caller's own
    PENDING expense. It answers 200 exactly when a PENDING expense with
    that id belongs to the caller, and then sets its status to
    CANCELLED without touching any step row or any other expense;
    otherwise it answers 404 and the store is unchanged. With unique
    expense ids, an expense whose status is not PENDING is never
    cancelled. *)
Theorem cancel_route_only_own_pending db expenseId userId :
  let out := cancelRoute expenseId userId db in
  (Response.code (fst out) = 200 \/ Response.code (fst out) = 404)
  /\ (Response.code (fst out) = 200
      <-> exists x, In x (expenses db) /\ Expense.id x = expenseId
                    /\ Expense.userId x = userId
                    /\ Expense.status x = "PENDING"%string)
  /\ (Response.code (fst out) = 200 ->
      expenseStatus (snd out) expenseId = Some "CANCELLED"%string
      /\ expenseApprovals (snd out) = expenseApprovals db
      /\ forall e', e' <> expenseId -> expenseStatus (snd out) e' = expenseStatus db e')
  /\ (Response.code (fst out) = 404 -> snd out = db)
  /\ (NoDup (map Expense.id (expenses db)) ->
      forall s, expenseStatus db expenseId = Some s -> s <> "PENDING"%string ->
                Response.code (fst out) = 404).
Proof.
  intros out. subst out. unfold cancelRoute.
  destruct (expense_findFirstPending db expenseId userId) as [x|] eqn:Ef.
  - destruct (expense_findFirstPending_spec db expenseId userId x Ef)
      as (Hin & Hid & Hu & Hst).
    pose proof (expense_found_by_id db expenseId x Hin Hid) as Hex.
    unfold expense_update.
    destruct (expense_findUnique db expenseId) as [y|] eqn:Ey; [|congruence].
    simpl. fold (afterExpenseUpdate expenseId "CANCELLED" db).
    split; [now left|]. split; [split; [intros _; now exists x | reflexivity]|].
    split; [|split; [discriminate|]].
    + intros _. split; [eapply expenseStatus_afterExpenseUpdate_same; exact Ey|].
      split; [reflexivity|].
      intros e' Hne. now apply expenseStatus_afterExpenseUpdate_other.
    + intros Hnd s Hs Hne. exfalso.
      rewrite (find_unique_id db expenseId x Hnd Hin Hid) in Ey.
      injection Ey as <-. unfold expenseStatus in Hs.
      rewrite (find_unique_id db expenseId x Hnd Hin Hid) in Hs. simpl in Hs.
      congruence.
  - simpl. split; [now right|]. split; [|split; [discriminate|split; [reflexivity|reflexivity]]].
    split; [discriminate|].
    intros (x & Hin & Hid & Hu & Hst). exfalso.
    unfold expense_findFirstPending in Ef.
    apply (find_none _ _ Ef) in Hin. simpl in Hin.
    rewrite Hid, Hu, Hst, !Z.eqb_refl in Hin. discriminate.
Qed.

(** X19. Cancelling does not stop the workflow: after a successful
    cancellation every step of the expense is as it was, so an approver
    with a PENDING step can still decide, and a rejection then returns
    the verdict REJECTED and replaces the status CANCELLED by
    REJECTED. *)
Theorem cancelled_expense_can_still_be_decided db expenseId userId approverId comment a :
  Response.code (fst (cancelRoute expenseId userId db)) = 200 ->
  In a (expenseApprovals db) ->
  pendingFor expenseId approverId a = true ->
  let db1 := snd (cancelRoute expenseId userId db) in
  expenseStatus db1 expenseId = Some "CANCELLED"%string
  /\ In a (expenseApprovals db1)
  /\ exists v db2,
       processApproval expenseId approverId "REJECTED" comment db1 = (inr v, db2)
       /\ Verdict.finalDecision v = Some "REJECTED"%string
       /\ expenseStatus db2 expenseId = Some "REJECTED"%string.
Proof.
  intros Hcode Hin Hp db1. subst db1.
  unfold cancelRoute in *.
  destruct (expense_findFirstPending db expenseId userId) as [x|] eqn:Ef;
    [|simpl in Hcode; discriminate].
  destruct (expense_findFirstPending_spec db expenseId userId x Ef)
    as (Hinx & Hid & _ & _).
  pose proof (expense_found_by_id db expenseId x Hinx Hid) as Hex.
  unfold expense_update in *.
  destruct (expense_findUnique db expenseId) as [y|] eqn:Ey; [|congruence].
  simpl. fold (afterExpenseUpdate expenseId "CANCELLED" db).
  set (db1 := afterExpenseUpdate expenseId "CANCELLED" db).
  assert (Hst1 : expenseStatus db1 expenseId = Some "CANCELLED"%string)
    by (eapply expenseStatus_afterExpenseUpdate_same; exact Ey).
  split; [exact Hst1|]. split; [exact Hin|].
  assert (Hin1 : In a (expenseApprovals db1)) by exact Hin.
  pose proof (processApproval_outcome expenseId approverId "REJECTED" comment db1) as O.
  inversion O as [Hn Heq | Hn Heq | ex w vd Hex' He Hw Hd Heq | ex w Hex' He Hw Hd Heq].
  - rewrite (Hn a Hin1) in Hp. discriminate.
  - unfold expenseStatus in Hst1. rewrite Hn in Hst1. discriminate.
  - pose proof (rejecting_verdict db1 expenseId approverId comment
                  (approvalRule_findMany db1 (Expense.companyId ex)) a Hin1 Hp) as Hrej.
    rewrite <- Hw in Hrej. assert (vd = "REJECTED"%string) by congruence. subst vd.
    exists w. eexists. split; [reflexivity|]. split; [exact Hrej|].
    eapply expenseStatus_afterExpenseUpdate_same. exact He.
  - pose proof (rejecting_verdict db1 expenseId approverId comment
                  (approvalRule_findMany db1 (Expense.companyId ex)) a Hin1 Hp) as Hrej.
    rewrite <- Hw in Hrej. congruence.
Qed.

Lemma cancelled_expense_can_still_be_decided_witness :
  let db1 := snd (cancelRoute 1 3 Sample2.twoPending) in
  expenseStatus db1 1 = Some "CANCELLED"%string
  /\ In (Sample.step 1 1 4 (Some "MANAGER"%string) "PENDING" 0) (expenseApprovals db1)
  /\ exists v db2,
       processApproval 1 4 "REJECTED" None db1 = (inr v, db2)
       /\ Verdict.finalDecision v = Some "REJECTED"%string
       /\ expenseStatus db2 1 = Some "REJECTED"%string.
Proof.
  apply (cancelled_expense_can_still_be_decided Sample2.twoPending 1 3 4 None
           (Sample.step 1 1 4 (Some "MANAGER"%string) "PENDING" 0)).
  - reflexivity.
  - left. reflexivity.
  - reflexivity.
Defined.

(** A cancelled expense whose only approver then approves ends APPROVED. *)
Example cancelled_then_approved :
  let db0 := snd (createApprovalSequence 2 1 5 (mkDB Sample.staff Sample.claims [] 0 [] [])) in
  let db1 := snd (cancelRoute 2 5 db0) in
  let db2 := snd (approveRoute Sample.managersOnly 1 2 (Some "APPROVED"%string) None db1) in
  expenseStatus db1 2 = Some "CANCELLED"%string
  /\ expenseStatus db2 2 = Some "APPROVED"%string.
Proof. split; reflexivity. Qed.

(** * Further properties of the sequence builder *)

Lemma sameSetup_refl db : sameSetup db db.
Proof. unfold sameSetup. auto. Qed.

(** X20. [createApprovalSequence] only ever appends: in every case, a
    throw included, the step table afterwards is the old table followed
    by the rows created, each of them PENDING, without comment, for the
    given expense and with a non-null approver; users, rules, sequence
    definitions and expenses are untouched; and when the call returns,
    the rows returned are exactly the rows created. *)
Theorem created_steps_are_appended_pending db expenseId companyId userId :
  let out := createApprovalSequence expenseId companyId userId db in
  exists created,
    expenseApprovals (snd out) = expenseApprovals db ++ created
    /\ Forall (freshStep expenseId) created
    /\ sameSetup db (snd out)
    /\ expenses (snd out) = expenses db
    /\ (forall rows, fst out = inr rows -> rows = created).
Proof.
  intros out. subst out.
  assert (Hnone : forall msg : string + list ExpenseApproval.t,
            (forall rows, msg = inr rows -> rows = []) ->
            exists created,
              expenseApprovals (snd (msg, db)) = expenseApprovals db ++ created
              /\ Forall (freshStep expenseId) created
              /\ sameSetup db (snd (msg, db))
              /\ expenses (snd (msg, db)) = expenses db
              /\ (forall rows, fst (msg, db) = inr rows -> rows = created)).
  { intros msg Hmsg. exists []. simpl. rewrite app_nil_r.
    repeat split; auto using sameSetup_refl. }
  destruct (definition_or_fallback db companyId) as [(sq & Hsq & Hne)|Hfb].
  - rewrite (createApprovalSequence_text _ _ _ _ _ Hsq Hne).
    apply Hnone. now intros rows [= <-].
  - rewrite (createApprovalSequence_fallback _ _ _ _ Hfb).
    destruct (user_findUnique db userId) as [user|];
      [|apply Hnone; now intros rows [= <-]].
    destruct (user_manager db user) as [manager|];
      [|apply Hnone; now intros rows [= <-]].
    destruct (expenseApproval_create_cases expenseId (User.id manager)
                (Some "MANAGER"%string) 0 db) as [(row & -> & Hrow & _)|[-> _]];
      [|apply Hnone; intros rows H; discriminate H].
    exists [row]. simpl. repeat split; auto using sameSetup_refl.
    + repeat constructor; rewrite Hrow; simpl; eauto.
    + intros rows [= <-]. reflexivity.
Qed.

(** X21. Without a stored definition, or with an empty one, the builder
    falls back on the submitter's manager. When the expense row exists
    it does not throw: it returns no row exactly when the submitter is
    unknown or reports to nobody the directory knows, and otherwise
    exactly one row, PENDING, of order 0, labelled MANAGER, whose
    approver is the user the submitter reports to. When the expense row
    does not exist and the submitter has a manager, the insertion is
    refused on the foreign key and nothing is written. *)
Theorem fallback_is_the_manager_step db expenseId companyId userId :
  approvalSequence_findFirst db companyId = None
  \/ (exists sq, approvalSequence_findFirst db companyId = Some sq
                 /\ ApprovalSequence.sequence sq = ""%string) ->
  (expense_findUnique db expenseId <> None ->
   exists rows db',
     createApprovalSequence expenseId companyId userId db = (inr rows, db')
     /\ expenseApprovals db' = expenseApprovals db ++ rows
     /\ (rows = [] <->
         user_findUnique db userId = None
         \/ exists user, user_findUnique db userId = Some user
                         /\ user_manager db user = None)
     /\ (forall a, In a rows ->
           rows = [a]
           /\ ExpenseApproval.order a = 0
           /\ ExpenseApproval.approverRole a = Some "MANAGER"%string
           /\ ExpenseApproval.status a = "PENDING"%string
           /\ ExpenseApproval.expenseId a = expenseId
           /\ exists user, user_findUnique db userId = Some user
                           /\ User.reportsTo user = ExpenseApproval.approverId a))
  /\ (expense_findUnique db expenseId = None ->
      (exists user manager, user_findUnique db userId = Some user
                            /\ user_manager db user = Some manager) ->
      createApprovalSequence expenseId companyId userId db
      = (inl "P2003: Foreign key constraint failed"%string, db)).
Proof.
  intros Hfb. rewrite (createApprovalSequence_fallback _ _ _ _ Hfb). split.
  - intros Hexp.
    destruct (user_findUnique db userId) as [user|] eqn:Eu.
    + destruct (user_manager db user) as [manager|] eqn:Em.
      * assert (Hman : user_findUnique db (User.id manager) <> None
                       /\ User.reportsTo user = Some (User.id manager)).
        { unfold user_manager in Em. destruct (User.reportsTo user) as [m|]; [|discriminate].
          pose proof Em as Em'. unfold user_findUnique in Em'. apply find_some in Em'.
          destruct Em' as [_ Em']. apply Z.eqb_eq in Em'. rewrite Em'.
          split; [congruence|reflexivity]. }
        destruct Hman as [Hman Hrep].
        destruct (expenseApproval_create_cases expenseId (User.id manager)
                    (Some "MANAGER"%string) 0 db) as [(row & -> & Hrow & _)|[_ [H|H]]];
          [|contradiction|contradiction].
        exists [row]. eexists. split; [reflexivity|]. split; [reflexivity|]. split.
        -- split; [discriminate|]. intros [H|(x & [= <-] & H)]; congruence.
        -- intros a [<-|[]]. rewrite Hrow. simpl. repeat split.
           exists user. split; trivial.
      * exists [], db. split; [reflexivity|]. split; [now rewrite app_nil_r|]. split.
        -- split; [|reflexivity]. intros _. right. now exists user.
        -- intros a [].
    + exists [], db. split; [reflexivity|]. split; [now rewrite app_nil_r|]. split.
      * split; [|reflexivity]. intros _. now left.
      * intros a [].
  - intros Hexp (user & manager & -> & ->).
    destruct (expenseApproval_create_cases expenseId (User.id manager)
                (Some "MANAGER"%string) 0 db) as [(row & _ & _ & H & _)|[-> _]];
      [contradiction|reflexivity].
Qed.

(** Emil's expense, and an expense id the store does not know. *)
Lemma fallback_is_the_manager_step_witness :
  let db := mkDB Sample.staff Sample.claims [] 0 [] [] in
  (expense_findUnique db 2 <> None ->
   exists rows db',
     createApprovalSequence 2 1 5 db = (inr rows, db')
     /\ expenseApprovals db' = expenseApprovals db ++ rows
     /\ (rows = [] <->
         user_findUnique db 5 = None
         \/ exists user, user_findUnique db 5 = Some user /\ user_manager db user = None)
     /\ (forall a, In a rows ->
           rows = [a]
           /\ ExpenseApproval.order a = 0
           /\ ExpenseApproval.approverRole a = Some "MANAGER"%string
           /\ ExpenseApproval.status a = "PENDING"%string
           /\ ExpenseApproval.expenseId a = 2
           /\ exists user, user_findUnique db 5 = Some user
                           /\ User.reportsTo user = ExpenseApproval.approverId a))
  /\ (expense_findUnique db 2 = None ->
      (exists user manager, user_findUnique db 5 = Some user
                            /\ user_manager db user = Some manager) ->
      createApprovalSequence 2 1 5 db
      = (inl "P2003: Foreign key constraint failed"%string, db)).
Proof.
  intros db.
  apply (fallback_is_the_manager_step db 2 1 5).
  left. reflexivity.
Defined.

Example fallback_for_an_unknown_expense_is_refused :
  let db := mkDB Sample.staff Sample.claims [] 0 [] [] in
  createApprovalSequence 99 1 5 db
  = (inl "P2003: Foreign key constraint failed"%string, db).
Proof. reflexivity. Qed.

(** X22. A stored sequence definition never produces a step. The
    definition is kept as text and the builder walks it character by
    character without parsing it: whatever the text says, whoever
    submits and whatever the directory holds, the builder returns no
    row, writes nothing and does not fall back on the submitter's
    manager, so the expense is left without any step. *)
Theorem stored_definition_creates_no_step db expenseId companyId userId sq :
  approvalSequence_findFirst db companyId = Some sq ->
  ApprovalSequence.sequence sq <> ""%string ->
  createApprovalSequence expenseId companyId userId db = (inr [], db)
  /\ stepsOf (snd (createApprovalSequence expenseId companyId userId db)) expenseId
     = stepsOf db expenseId.
Proof.
  intros Hsq Hne.
  assert (H : createApprovalSequence expenseId companyId userId db = (inr [], db)).
  { unfold createApprovalSequence. rewrite Hsq. cbv zeta.
    apply String.eqb_neq in Hne. rewrite Hne. simpl negb. cbv iota.
    apply forSteps_chars. }
  rewrite H. split; reflexivity.
Qed.

(** The seeded definition and Eve, whose manager is Max. *)
Lemma stored_definition_creates_no_step_witness :
  createApprovalSequence 1 1 3 Sample.seeded = (inr [], Sample.seeded)
  /\ stepsOf (snd (createApprovalSequence 1 1 3 Sample.seeded)) 1 = stepsOf Sample.seeded 1.
Proof.
  apply (stored_definition_creates_no_step Sample.seeded 1 1 3
           (ApprovalSequence.mk 1 1 Sample.seedSequence true)).
  - reflexivity.
  - discriminate.
Defined.
